(** * LuaDist Ansible modules: [library/luadist.py] and [library/luadist_wrapper.py]

    A shallow embedding of the two modules of the role, and the properties
    of the reconciliation procedure they implement.

    The modules are Python programs that run inside the Ansible module
    framework.  Their values are dynamically typed, their failures are
    raised exceptions or the framework's [exit_json] / [fail_json], and
    every effect goes through three host primitives: [os.path.exists],
    [os.chdir] and [module.run_command].  The embedding keeps all three
    aspects: a type of Python values, an outcome monad over an explicit
    state, and a type class for the host. *)

From Stdlib Require Import String Ascii List ZArith Bool Lia.
Import ListNotations.
Local Open Scope list_scope.
Local Open Scope string_scope.

(** ** Python values *)

#[local] Unset Elimination Schemes.
Inductive pyval : Type :=
| PyNone
| PyBool (b : bool)
| PyInt (z : Z)
| PyStr (s : string)
| PyList (l : list pyval)
| PyDict (d : list (string * pyval)).
#[local] Set Elimination Schemes.

(** Python dictionaries keep insertion order; keyword arguments of
    [exit_json] and [fail_json] are such dictionaries. *)
Definition kwargs := list (string * pyval).

Fixpoint dict_get (k : string) (d : kwargs) : option pyval :=
  match d with
  | [] => None
  | (k', v) :: d' => if String.eqb k k' then Some v else dict_get k d'
  end.

(** [d[k] = v]: replaces in place when the key exists, appends otherwise. *)
Fixpoint dict_set (k : string) (v : pyval) (d : kwargs) : kwargs :=
  match d with
  | [] => [(k, v)]
  | (k', v') :: d' =>
      if String.eqb k k' then (k', v) :: d' else (k', v') :: dict_set k v d'
  end.

Definition dict_keys (d : kwargs) : list string := map fst d.

(** [needle in hay] on two [str]: substring test. *)
Fixpoint str_contains (needle hay : string) : bool :=
  if String.prefix needle hay then true
  else match hay with
       | EmptyString => false
       | String _ hay' => str_contains needle hay'
       end.

Fixpoint str_chars (s : string) : list pyval :=
  match s with
  | EmptyString => []
  | String c s' => PyStr (String c EmptyString) :: str_chars s'
  end.

Fixpoint ends_with_slash (s : string) : bool :=
  match s with
  | EmptyString => false
  | String c EmptyString => Ascii.eqb c "/"
  | String _ s' => ends_with_slash s'
  end.

(** [posixpath.join(a, b)] for two components. *)
Definition os_path_join (a b : string) : string :=
  if String.prefix "/" b then b
  else if orb (String.eqb a "") (ends_with_slash a) then a ++ b
  else a ++ "/" ++ b.

(** ** The host

    What the operating system and the external tools answer.  The world
    [W] holds the file system, the working directory of the module
    process and whatever the spawned programs keep. *)

Class Host (W : Type) : Type := {
  (** [os.path.exists(p)] *)
  os_path_exists : W -> string -> bool;
  (** [os.chdir(p)]; [None] when the call raises [OSError] *)
  os_chdir : W -> string -> option W;
  (** the child process of [run_command(cmd, cwd=d, use_unsafe_shell=b)]:
      the world it leaves and its exit code, stdout and stderr *)
  spawn : W -> string -> bool -> option string -> W * (Z * string * string)
}.

(** One [run_command] call, as it was made and as it answered. *)
Record call : Type := Call {
  c_cmd : string;
  c_shell : bool;
  c_cwd : option string;
  c_rc : Z;
  c_out : string;
  c_err : string
}.

(** The state threaded through a module run: the world, and the
    subprocess calls made so far, most recent first. *)
Record state (W : Type) : Type := State {
  world : W;
  calls : list call
}.
Arguments State {W} _ _.
Arguments world {W} _.
Arguments calls {W} _.

Inductive exn : Type := TypeError | KeyError | OSError.

(** How a piece of module code ends: it returns, it leaves the process
    through [exit_json] or [fail_json], or it raises. *)
Inductive outcome (A : Type) : Type :=
| Ret (a : A)
| ExitJson (kw : kwargs)
| FailJson (kw : kwargs)
| Raise (e : exn).
Arguments Ret {A} _.
Arguments ExitJson {A} _.
Arguments FailJson {A} _.
Arguments Raise {A} _.

Definition M (W A : Type) : Type := state W -> outcome A * state W.

Definition ret {W A} (a : A) : M W A := fun st => (Ret a, st).

Definition bind {W A B} (m : M W A) (k : A -> M W B) : M W B :=
  fun st =>
    match m st with
    | (Ret a, st') => k a st'
    | (ExitJson kw, st') => (ExitJson kw, st')
    | (FailJson kw, st') => (FailJson kw, st')
    | (Raise e, st') => (Raise e, st')
    end.

Definition raise {W A} (e : exn) : M W A := fun st => (Raise e, st).
Definition exit_json {W A} (kw : kwargs) : M W A := fun st => (ExitJson kw, st).
Definition fail_json {W A} (kw : kwargs) : M W A := fun st => (FailJson kw, st).

Declare Scope py_scope.
Delimit Scope py_scope with py.
Notation "x <- c ;; k" := (bind c (fun x => k))
  (at level 61, c at next level, right associativity) : py_scope.
Notation "c ;;; k" := (bind c (fun _ => k))
  (at level 61, right associativity) : py_scope.
Local Open Scope py_scope.

(** ** Python operations the modules use *)

Section Operations.
Context {W : Type} {H : Host W}.

(** [s + v] with [s] a [str] *)
Definition str_add (s : string) (v : pyval) : M W string :=
  match v with
  | PyStr t => ret (s ++ t)
  | _ => raise TypeError
  end.

(** [v + s] with [s] a [str] *)
Definition add_str (v : pyval) (s : string) : M W string :=
  match v with
  | PyStr t => ret (t ++ s)
  | _ => raise TypeError
  end.

(** [v in out] with [out] a [str] *)
Definition py_in_str (v : pyval) (out : string) : M W bool :=
  match v with
  | PyStr t => ret (str_contains t out)
  | _ => raise TypeError
  end.

(** [v == s] with [s] a [str] *)
Definition py_eq_str (v : pyval) (s : string) : bool :=
  match v with
  | PyStr t => String.eqb t s
  | _ => false
  end.

(** the items a [for] loop over [v] visits *)
Definition py_iter (v : pyval) : M W (list pyval) :=
  match v with
  | PyList l => ret l
  | PyDict d => ret (map PyStr (dict_keys d))
  | PyStr s => ret (str_chars s)
  | PyNone | PyBool _ | PyInt _ => raise TypeError
  end.

(** [d[k]] on a dictionary *)
Definition py_getitem (d : kwargs) (k : string) : M W pyval :=
  match dict_get k d with
  | Some v => ret v
  | None => raise KeyError
  end.

(** [os.path.join(v, s)] *)
Definition py_path_join (v : pyval) (s : string) : M W string :=
  match v with
  | PyStr a => ret (os_path_join a s)
  | _ => raise TypeError
  end.

(** [os.path.exists(p)] *)
Definition py_path_exists (p : string) : M W bool :=
  fun st => (Ret (os_path_exists (world st) p), st).

(** [os.chdir(v)] *)
Definition py_chdir (v : pyval) : M W unit :=
  match v with
  | PyStr p =>
      fun st =>
        match os_chdir (world st) p with
        | Some w' => (Ret tt, State w' (calls st))
        | None => (Raise OSError, st)
        end
  | _ => raise TypeError
  end.

(** [module.run_command(cmd, cwd=v, use_unsafe_shell=shell)]: the child
    runs once, and the call is recorded.  The model covers the calls in
    which the child is started and ends, which give the exit code, stdout
    and stderr that the modules read.  The framework's own failure when
    the program cannot be started (it then leaves through [fail_json]
    with the error number and a message of its own) is not modelled, nor
    is its handling of a [cwd] that is no directory. *)
Definition run_command (cmd : string) (v : pyval) (shell : bool)
  : M W (Z * string * string) :=
  let go (d : option string) : M W (Z * string * string) :=
    fun st =>
      let '(w', (rc, out, err)) := spawn (world st) cmd shell d in
      (Ret (rc, out, err), State w' (Call cmd shell d rc out err :: calls st))
  in
  match v with
  | PyStr d => go (Some d)
  | PyNone => go None
  | _ => raise TypeError
  end.
End Operations.

(** ** The module framework

    [ansible.module_utils.basic.AnsibleModule] is not part of the role.
    Its constructor is modelled after its documented contract, in the
    order of Ansible 2.10 (the modules' [version_added]): parameters the
    argument spec does not know are refused, a check-mode run of a module
    that does not support check mode is skipped, defaults are filled in,
    required parameters, types and choices are checked.  Type coercions
    (a comma separated string for a list, a number for a string) are not
    modelled: a value of another type is refused. *)

Record invocation : Type := Invocation {
  task_args : kwargs;
  task_check_mode : bool
}.

Record AnsibleModule : Type := Module_ {
  params : kwargs;
  check_mode : bool
}.

Definition spec_field (entry : pyval) (k : string) : option pyval :=
  match entry with
  | PyDict d => dict_get k d
  | _ => None
  end.

Definition is_none (v : pyval) : bool :=
  match v with PyNone => true | _ => false end.

Definition is_str (v : pyval) : bool :=
  match v with PyStr _ => true | _ => false end.

Definition spec_default (entry : pyval) : pyval :=
  match spec_field entry "default" with
  | Some v => v
  | None => PyNone
  end.

Definition spec_required (entry : pyval) : bool :=
  match spec_field entry "required" with
  | Some (PyBool b) => b
  | _ => false
  end.

(** the value of parameter [k]: what the task supplied, else the default,
    else [None] *)
Definition param_value (args : kwargs) (k : string) (entry : pyval) : pyval :=
  match dict_get k args with
  | Some v => v
  | None => spec_default entry
  end.

Definition type_ok (entry v : pyval) : bool :=
  if is_none v then true
  else match spec_field entry "type" with
       | Some (PyStr "str") => is_str v
       | Some (PyStr "list") =>
           match v with
           | PyList l =>
               match spec_field entry "elements" with
               | Some (PyStr "str") => forallb is_str l
               | _ => true
               end
           | _ => false
           end
       | _ => true
       end.

Definition choice_ok (entry v : pyval) : bool :=
  if is_none v then true
  else match spec_field entry "choices", v with
       | Some (PyList cs), PyStr s => existsb (fun c => py_eq_str c s) cs
       | Some (PyList cs), _ => false
       | _, _ => true
       end.

Section Framework.
Context {W : Type} {H : Host W}.

Definition unsupported (argument_spec args : kwargs) : bool :=
  existsb (fun k => negb (existsb (String.eqb k) (dict_keys argument_spec)))
          (dict_keys args).

Definition missing_required (argument_spec args : kwargs) : bool :=
  existsb (fun '(k, entry) =>
             andb (spec_required entry)
                  (match dict_get k args with Some _ => false | None => true end))
          argument_spec.

(** [AnsibleModule(argument_spec=..., supports_check_mode=...)] for the
    module called [name], run for the task [inv]. *)
Definition AnsibleModule_init (name : string) (argument_spec : kwargs)
    (supports_check_mode : bool) (inv : invocation) : M W AnsibleModule :=
  let args := task_args inv in
  if unsupported argument_spec args then
    fail_json [("msg", PyStr ("Unsupported parameters for (" ++ name ++ ") module"))]
  else if andb (task_check_mode inv) (negb supports_check_mode) then
    exit_json [("skipped", PyBool true);
               ("msg", PyStr ("remote module (" ++ name
                              ++ ") does not support check mode"))]
  else
    let ps := map (fun '(k, entry) => (k, param_value args k entry)) argument_spec in
    if missing_required argument_spec args then
      fail_json [("msg", PyStr "missing required arguments")]
    else if negb (forallb (fun '(k, entry) => type_ok entry (param_value args k entry))
                           argument_spec) then
      fail_json [("msg", PyStr "argument is of the wrong type")]
    else if negb (forallb (fun '(k, entry) => choice_ok entry (param_value args k entry))
                           argument_spec) then
      fail_json [("msg", PyStr "value of argument must be one of the choices")]
    else
      ret (Module_ ps (task_check_mode inv)).
End Framework.

(** What Ansible reports as [changed] for a result: the [changed] key of
    the module's answer, and [False] when the answer has none. *)
Definition reported_changed (kw : kwargs) : bool :=
  match dict_get "changed" kw with
  | Some (PyBool b) => b
  | _ => false
  end.

(** ** Requests

    The request of the specification: a path, an optional package list,
    an optional dist policy and an optional repository.  [task] turns it
    into the task arguments a playbook would carry; [pkg_key] is the name
    of the package-list option, which differs between the modules. *)

Inductive dist_policy : Type := All | BinaryOnly | SourceOnly.

Definition policy_str (p : dist_policy) : string :=
  match p with
  | All => "all"
  | BinaryOnly => "binary"
  | SourceOnly => "source"
  end.

Record request : Type := Request {
  r_path : string;
  r_packages : option (list string);
  r_policy : option dist_policy;
  r_repo : option string
}.

Definition opt_arg {A} (k : string) (f : A -> pyval) (o : option A) : kwargs :=
  match o with
  | Some a => [(k, f a)]
  | None => []
  end.

Definition str_list (l : list string) : pyval := PyList (map PyStr l).

Definition task (pkg_key : string) (r : request) (check : bool) : invocation :=
  Invocation
    (("path", PyStr (r_path r))
       :: (opt_arg pkg_key str_list (r_packages r)
           ++ opt_arg "allow_dists" (fun p => PyStr (policy_str p)) (r_policy r)
           ++ opt_arg "dists_repo" PyStr (r_repo r))%list)
    check.

Definition default_repo : string := "git://github.com/LuaDist/Repository.git".

Definition dquote : string := String "034"%char EmptyString.

(** ** [library/luadist.py] *)

Module Luadist.
Section Code.
Context {W : Type} {H : Host W}.

Definition module_args : kwargs :=
  [ ("path", PyDict [("type", PyStr "str"); ("required", PyBool true)]);
    ("package", PyDict [("type", PyStr "list"); ("elements", PyStr "str")]);
    ("allow_dists",
      PyDict [("type", PyStr "str"); ("default", PyStr "all");
              ("choices", PyList [PyStr "all"; PyStr "binary"; PyStr "source"])]);
    ("dists_repo", PyDict [("type", PyStr "str"); ("default", PyStr default_repo)]) ].

Definition setup_cmd : string :=
  Eval cbv in
    "echo " ++ dquote ++ "$(curl -fksSL https://tinyurl.com/luadist)" ++ dquote
      ++ " | bash".

Definition install_failed : string :=
  Eval cbv in
    "Cannot install one or more of the specified packages, "
      ++ "make sure all packages exist in the configured repository.".

(** Returns whether luadist environment is in the specified path *)
Definition _luadist_is_present (path : pyval) : M W bool :=
  py_chdir path ;;;
  py_path_exists "LuaDist/bin/luadist".

(** Creates luadist environment in the specified path *)
Definition _setup_luadist (module : AnsibleModule) (path : pyval) : M W unit :=
  let cmd := setup_cmd in
  run_command cmd path false ;;;
  ret tt.

(** Returns whether package is installed *)
Definition _is_present (module : AnsibleModule) (path pkgname : pyval) : M W bool :=
  cmd <- str_add "./LuaDist/bin/luadist list " pkgname ;;
  r <- run_command cmd path false ;;
  let '(_, out, _) := r in
  py_in_str pkgname out.

(** [for package in packages: cmd += package + " "] *)
Fixpoint add_packages (cmd : string) (packages : list pyval) : M W string :=
  match packages with
  | [] => ret cmd
  | package :: rest =>
      t <- add_str package " " ;;
      add_packages (cmd ++ t) rest
  end.

(** Installs the specified packages *)
Definition _install_packages (module : AnsibleModule)
    (path packages allowed_dists repo : pyval) : M W unit :=
  let cmd := "./LuaDist/bin/luadist install " in
  items <- py_iter packages ;;
  cmd <- add_packages cmd items ;;
  let source_allowed := "true" in
  let binary_allowed := "true" in
  let '(source_allowed, binary_allowed) :=
    if py_eq_str allowed_dists "binary" then ("false", binary_allowed)
    else if py_eq_str allowed_dists "source" then (source_allowed, "false")
    else (source_allowed, binary_allowed) in
  let cmd := cmd ++ (" -source=" ++ source_allowed ++ " -binary=" ++ binary_allowed) in
  t <- str_add (" --repo=" ++ dquote) repo ;;
  let cmd := cmd ++ (t ++ dquote) in
  r <- run_command cmd path false ;;
  let '(_, out, _) := r in
  if negb (str_contains "Installation succesful" out) then
    fail_json [("msg", PyStr install_failed)]
  else ret tt.

(** [for package in packages: if not _is_present(...): all_present = False; break] *)
Fixpoint audit (module : AnsibleModule) (path : pyval) (packages : list pyval)
  : M W bool :=
  match packages with
  | [] => ret true
  | package :: rest =>
      present <- _is_present module path package ;;
      if negb present then ret false else audit module path rest
  end.

Definition run_module (inv : invocation) : M W unit :=
  module <- AnsibleModule_init "luadist" module_args true inv ;;
  path <- py_getitem module_args "path" ;;
  packages <- py_getitem module_args "package" ;;
  allow_dists <- py_getitem module_args "allow_dists" ;;
  dists_repo <- py_getitem module_args "dists_repo" ;;
  (if check_mode module then exit_json [("changed", PyBool false)] else ret tt) ;;;
  let state_changed := false in
  present <- _luadist_is_present path ;;
  state_changed <-
    (if negb present then
       let state_changed := true in
       _setup_luadist module path ;;;
       ret state_changed
     else ret state_changed) ;;
  items <- py_iter packages ;;
  all_present <- audit module path items ;;
  state_changed <-
    (if negb all_present then
       let state_changed := true in
       _install_packages module path packages allow_dists dists_repo ;;;
       ret state_changed
     else ret state_changed) ;;
  exit_json [("changed", PyBool state_changed)].
End Code.
End Luadist.

(** ** [library/luadist_wrapper.py] *)

Module LuadistWrapper.
Section Code.
Context {W : Type} {H : Host W}.

Definition module_args : kwargs :=
  [ ("path", PyDict [("type", PyStr "str"); ("required", PyBool true)]);
    ("name", PyDict [("type", PyStr "list"); ("elements", PyStr "str")]);
    ("allow_dists",
      PyDict [("type", PyStr "str"); ("default", PyStr "all");
              ("choices", PyList [PyStr "all"; PyStr "binary"; PyStr "source"])]);
    ("dists_repo", PyDict [("type", PyStr "str"); ("default", PyStr default_repo)]) ].

Definition setup_cmd : string := "curl -fksSL https://tinyurl.com/luadist | bash".

Definition setup_failed : string :=
  "Cannot create LuaDist environment in the specified path.".

Definition audit_failed : string :=
  "Cannot check the status of one or more packages.".

Definition install_failed : string :=
  Eval cbv in
    "Cannot install one or more of the specified packages, "
      ++ "make sure all packages exist in the configured repository.".

(** Returns whether luadist environment is in the specified path *)
Definition _luadist_is_present (path : pyval) : M W bool :=
  p <- py_path_join path "LuaDist/bin/luadist" ;;
  py_path_exists p.

(** Creates luadist environment in the specified path *)
Definition _setup_luadist (module : AnsibleModule) (path : pyval) : M W unit :=
  let cmd := setup_cmd in
  r <- run_command cmd path true ;;
  let '(ret_code, out, err) := r in
  present <- _luadist_is_present path ;;
  if negb present then
    fail_json [("rc", PyInt ret_code); ("stdout", PyStr out); ("stderr", PyStr err);
               ("msg", PyStr setup_failed)]
  else ret tt.

(** Returns whether package is installed *)
Definition _is_present (module : AnsibleModule) (path pkgname : pyval) : M W bool :=
  cmd <- str_add "./LuaDist/bin/luadist list " pkgname ;;
  r <- run_command cmd path false ;;
  let '(ret_code, out, err) := r in
  (if negb (Z.eqb ret_code 0) then
     fail_json [("rc", PyInt ret_code); ("stdout", PyStr out); ("stderr", PyStr err);
                ("msg", PyStr audit_failed)]
   else ret tt) ;;;
  py_in_str pkgname out.

(** [for package in packages: cmd += package + " "] *)
Fixpoint add_packages (cmd : string) (packages : list pyval) : M W string :=
  match packages with
  | [] => ret cmd
  | package :: rest =>
      t <- add_str package " " ;;
      add_packages (cmd ++ t) rest
  end.

(** Installs the specified packages. Returns the command used for installation *)
Definition _install_packages (module : AnsibleModule)
    (path packages allowed_dists repo : pyval) : M W string :=
  let cmd := "./LuaDist/bin/luadist install " in
  items <- py_iter packages ;;
  cmd <- add_packages cmd items ;;
  let source_allowed := "true" in
  let binary_allowed := "true" in
  let '(source_allowed, binary_allowed) :=
    if py_eq_str allowed_dists "binary" then ("false", binary_allowed)
    else if py_eq_str allowed_dists "source" then (source_allowed, "false")
    else (source_allowed, binary_allowed) in
  let cmd := cmd ++ (" -source=" ++ source_allowed ++ " -binary=" ++ binary_allowed) in
  t <- str_add (" -repos=" ++ dquote) repo ;;
  let cmd := cmd ++ (t ++ dquote) in
  r <- run_command cmd path false ;;
  let '(ret_code, out, err) := r in
  let already_installed := str_contains "No packages to install" out in
  if andb (negb (Z.eqb ret_code 0)) (negb already_installed) then
    fail_json [("rc", PyInt ret_code); ("stdout", PyStr out); ("stderr", PyStr err);
               ("msg", PyStr install_failed)]
  else ret cmd.

(** [for package in packages: if not _is_present(...): all_present = False; break] *)
Fixpoint audit (module : AnsibleModule) (path : pyval) (packages : list pyval)
  : M W bool :=
  match packages with
  | [] => ret true
  | package :: rest =>
      present <- _is_present module path package ;;
      if negb present then ret false else audit module path rest
  end.

Definition run_module (inv : invocation) : M W unit :=
  module <- AnsibleModule_init "luadist_wrapper" module_args false inv ;;
  path <- py_getitem (params module) "path" ;;
  packages <- py_getitem (params module) "name" ;;
  allow_dists <- py_getitem (params module) "allow_dists" ;;
  dists_repo <- py_getitem (params module) "dists_repo" ;;
  let result := [("changed", PyBool false); ("cmd", PyStr "");
                 ("env_path", path); ("name", packages)] in
  present <- _luadist_is_present path ;;
  result <-
    (if negb present then
       let result := dict_set "changed" (PyBool true) result in
       _setup_luadist module path ;;;
       ret result
     else ret result) ;;
  items <- py_iter packages ;;
  all_present <- audit module path items ;;
  result <-
    (if negb all_present then
       let result := dict_set "changed" (PyBool true) result in
       cmd <- _install_packages module path packages allow_dists dists_repo ;;
       ret (dict_set "cmd" (PyStr cmd) result)
     else ret result) ;;
  exit_json result.
End Code.
End LuadistWrapper.

(** ** A small concrete host

    A world with one environment directory, [/env].  The bootstrap script
    creates the LuaDist binary when [bootstrap_ok] holds; [luadist list]
    and [luadist install] answer with fixed exit codes and outputs. *)

Module Toy.
Record world : Type := World {
  luadist : bool;
  bootstrap_ok : bool;
  list_rc : Z;
  list_out : string;
  install_rc : Z;
  install_out : string
}.

Definition exists_ (w : world) (p : string) : bool :=
  andb (luadist w)
       (orb (String.eqb p "/env/LuaDist/bin/luadist")
            (String.eqb p "LuaDist/bin/luadist")).

Definition chdir (w : world) (p : string) : option world :=
  if String.eqb p "/env" then Some w else None.

Definition run (w : world) (cmd : string) (shell : bool) (cwd : option string)
  : world * (Z * string * string) :=
  if orb (String.eqb cmd (@LuadistWrapper.setup_cmd))
         (String.eqb cmd (@Luadist.setup_cmd)) then
    if bootstrap_ok w then
      (World true true (list_rc w) (list_out w) (install_rc w) (install_out w),
       (0%Z, "", ""))
    else (w, (6%Z, "", "curl: (6) Could not resolve host"))
  else if String.prefix "./LuaDist/bin/luadist list " cmd then
    (w, (list_rc w, list_out w, ""))
  else if String.prefix "./LuaDist/bin/luadist install " cmd then
    (w, (install_rc w, install_out w, ""))
  else (w, (127%Z, "", "command not found")).

#[global] Instance host : Host world := {
  os_path_exists := exists_;
  os_chdir := chdir;
  spawn := run
}.
End Toy.

(** ** Vocabulary of the properties *)

(** the binary whose existence means that LuaDist is installed at [path] *)
Definition luadist_bin (path : string) : string :=
  os_path_join path "LuaDist/bin/luadist".

Definition list_cmd (pkg : string) : string := "./LuaDist/bin/luadist list " ++ pkg.

(** Subprocess calls are told apart by their command lines. *)
Definition is_bootstrap (c : call) : bool :=
  orb (String.eqb (c_cmd c) LuadistWrapper.setup_cmd)
      (String.eqb (c_cmd c) Luadist.setup_cmd).

Definition is_list (c : call) : bool :=
  String.prefix "./LuaDist/bin/luadist list " (c_cmd c).

Definition is_install (c : call) : bool :=
  String.prefix "./LuaDist/bin/luadist install " (c_cmd c).

Definition is_fatal {A} (o : outcome A) : bool :=
  match o with FailJson _ => true | _ => false end.

(** the answer of [fail_json(rc=..., stdout=..., stderr=..., msg=...)] *)
Definition failure (rc : Z) (out err msg : string) : kwargs :=
  [("rc", PyInt rc); ("stdout", PyStr out); ("stderr", PyStr err); ("msg", PyStr msg)].

(** the values the framework hands to the module for a request *)
Definition eff_packages (r : request) : pyval :=
  match r_packages r with
  | Some l => str_list l
  | None => PyNone
  end.

Definition eff_policy (r : request) : dist_policy :=
  match r_policy r with
  | Some p => p
  | None => All
  end.

Definition eff_repo (r : request) : string :=
  match r_repo r with
  | Some u => u
  | None => default_repo
  end.

(** The dist-policy table of the specification. *)
Definition source_allowed (p : dist_policy) : bool :=
  match p with
  | All => true
  | BinaryOnly => false
  | SourceOnly => true
  end.

Definition binary_allowed (p : dist_policy) : bool :=
  match p with
  | All => true
  | BinaryOnly => true
  | SourceOnly => false
  end.

Definition bool_str (b : bool) : string := if b then "true" else "false".

(** The install command as the specification words it: the package names
    in request order, each followed by a blank, then the two flags, then
    the quoted repository.  [repo_flag] is the spelling of the repository
    option, which differs between the modules. *)
Fixpoint pkg_words (pkgs : list string) : string :=
  match pkgs with
  | [] => ""
  | p :: rest => p ++ " " ++ pkg_words rest
  end.

Definition install_command (repo_flag : string) (pkgs : list string)
    (p : dist_policy) (repo : string) : string :=
  "./LuaDist/bin/luadist install " ++ pkg_words pkgs
    ++ " -source=" ++ bool_str (source_allowed p)
    ++ " -binary=" ++ bool_str (binary_allowed p)
    ++ repo_flag ++ dquote ++ repo ++ dquote.

(** [s.split(" ")] *)
Fixpoint words (s : string) : list string :=
  match s with
  | EmptyString => [""]
  | String c s' =>
      if Ascii.eqb c " " then "" :: words s'
      else match words s' with
           | [] => [String c ""]
           | w :: ws => String c w :: ws
           end
  end.

Fixpoint no_space (s : string) : bool :=
  match s with
  | EmptyString => true
  | String c s' => andb (negb (Ascii.eqb c " ")) (no_space s')
  end.

Section Listing.
Context {W : Type} {H : Host W}.

(** Every package of [pkgs] is listed: asked in order from world [w],
    each [luadist list] exits with 0 and prints the name. *)
Fixpoint all_listed (w : W) (path : string) (pkgs : list string) : bool :=
  match pkgs with
  | [] => true
  | p :: rest =>
      let '(w', (rc, out, _)) := spawn w (list_cmd p) false (Some path) in
      andb (andb (Z.eqb rc 0) (str_contains p out)) (all_listed w' path rest)
  end.
End Listing.

(** ** The runs of the wrapper module

    [wrapper_run r w o st] lists the ways a run for request [r], started
    in world [w], can end: with outcome [o] and final state [st]. *)

Section RunShapes.
Context {W : Type} {H : Host W}.

(** a call the audit loop makes: [luadist list] for one of the requested
    packages, in [path] *)
Definition audit_call (path : string) (pkgs : list string) (c : call) : Prop :=
  (exists pkg, In pkg pkgs /\ c_cmd c = list_cmd pkg)
  /\ c_shell c = false /\ c_cwd c = Some path.

(** the bootstrap step: the world it leaves and the call it made, if any *)
Definition boot_step (w : W) (path : string) : W * list call :=
  if os_path_exists w (luadist_bin path) then (w, [])
  else
    let '(w1, (rc, out, err)) := spawn w LuadistWrapper.setup_cmd true (Some path) in
    (w1, [Call LuadistWrapper.setup_cmd true (Some path) rc out err]).

Definition result (changed : bool) (cmd : string) (r : request) : kwargs :=
  [("changed", PyBool changed); ("cmd", PyStr cmd);
   ("env_path", PyStr (r_path r)); ("name", eff_packages r)].

Definition wrapper_cmd (r : request) (pkgs : list string) : string :=
  install_command " -repos=" pkgs (eff_policy r) (eff_repo r).

Inductive wrapper_run (r : request) (w : W) : outcome unit -> state W -> Prop :=
| WR_bootstrap_failed w1 rc out err :
    os_path_exists w (luadist_bin (r_path r)) = false ->
    spawn w LuadistWrapper.setup_cmd true (Some (r_path r)) = (w1, (rc, out, err)) ->
    os_path_exists w1 (luadist_bin (r_path r)) = false ->
    wrapper_run r w
      (FailJson (failure rc out err LuadistWrapper.setup_failed))
      (State w1 [Call LuadistWrapper.setup_cmd true (Some (r_path r)) rc out err])
| WR_no_list w1 boot :
    boot_step w (r_path r) = (w1, boot) ->
    os_path_exists w1 (luadist_bin (r_path r)) = true ->
    r_packages r = None ->
    wrapper_run r w (Raise TypeError) (State w1 boot)
| WR_audit_failed w1 boot pkgs w2 c rest :
    boot_step w (r_path r) = (w1, boot) ->
    os_path_exists w1 (luadist_bin (r_path r)) = true ->
    r_packages r = Some pkgs ->
    all_listed w1 (r_path r) pkgs = false ->
    Forall (audit_call (r_path r) pkgs) (c :: rest) ->
    c_rc c <> 0%Z ->
    Forall (fun c => c_rc c = 0%Z) rest ->
    wrapper_run r w
      (FailJson (failure (c_rc c) (c_out c) (c_err c) LuadistWrapper.audit_failed))
      (State w2 ((c :: rest) ++ boot)%list)
| WR_converged w1 boot pkgs w2 lists :
    boot_step w (r_path r) = (w1, boot) ->
    os_path_exists w1 (luadist_bin (r_path r)) = true ->
    r_packages r = Some pkgs ->
    all_listed w1 (r_path r) pkgs = true ->
    Forall (audit_call (r_path r) pkgs) lists ->
    Forall (fun c => c_rc c = 0%Z) lists ->
    wrapper_run r w
      (ExitJson (result (negb (os_path_exists w (luadist_bin (r_path r)))) "" r))
      (State w2 (lists ++ boot)%list)
| WR_installed w1 boot pkgs w2 lists w3 rc out err :
    boot_step w (r_path r) = (w1, boot) ->
    os_path_exists w1 (luadist_bin (r_path r)) = true ->
    r_packages r = Some pkgs ->
    all_listed w1 (r_path r) pkgs = false ->
    Forall (audit_call (r_path r) pkgs) lists ->
    Forall (fun c => c_rc c = 0%Z) lists ->
    lists <> [] ->
    spawn w2 (wrapper_cmd r pkgs) false (Some (r_path r)) = (w3, (rc, out, err)) ->
    wrapper_run r w
      (if andb (negb (Z.eqb rc 0))
               (negb (str_contains "No packages to install" out))
       then FailJson (failure rc out err LuadistWrapper.install_failed)
       else ExitJson (result true (wrapper_cmd r pkgs) r))
      (State w3 (Call (wrapper_cmd r pkgs) false (Some (r_path r)) rc out err
                   :: lists ++ boot)%list).
End RunShapes.

(** The code of the wrapper's [run_module] after the bootstrap step
    (the audit loop, the install and the exit), for request [r] and the
    value [changed] that the bootstrap step left in the result. *)
Definition wrapper_tail {W : Type} {H : Host W} (r : request) (changed : bool)
  : M W unit :=
  let module :=
    Module_ [("path", PyStr (r_path r)); ("name", eff_packages r);
             ("allow_dists", PyStr (policy_str (eff_policy r)));
             ("dists_repo", PyStr (eff_repo r))] false in
  items <- py_iter (eff_packages r) ;;
  all_present <- LuadistWrapper.audit module (PyStr (r_path r)) items ;;
  res <-
    (if negb all_present then
       let res := dict_set "changed" (PyBool true) (result changed "" r) in
       cmd <- LuadistWrapper._install_packages module (PyStr (r_path r)) (eff_packages r)
                (PyStr (policy_str (eff_policy r))) (PyStr (eff_repo r)) ;;
       ret (dict_set "cmd" (PyStr cmd) res)
     else ret (result changed "" r)) ;;
  exit_json res.

(** the command line of the most recent subprocess call of a run *)
Definition last_cmd {W A : Type} (run : outcome A * state W) : option string :=
  match calls (snd run) with
  | c :: _ => Some (c_cmd c)
  | [] => None
  end.

(** whether the bootstrap or the install step ran *)
Definition ran_bootstrap_or_install {W : Type} (st : state W) : bool :=
  existsb (fun c => orb (is_bootstrap c) (is_install c)) (calls st).

(** the requested packages, none when the list is omitted *)
Definition pkgs_of (r : request) : list string :=
  match r_packages r with
  | Some l => l
  | None => []
  end.

(** ** Concrete runs *)

Module Runs.
Import Toy.

Definition req_md5 : request :=
  Request "/env" (Some ["md5"]) (Some BinaryOnly) (Some "git://example.org/repo.git").

Definition req_base : request := Request "/env" (Some []) (Some All) None.

Definition no_module : AnsibleModule := Module_ [] false.

(** no LuaDist, and the bootstrap script cannot be fetched *)
Definition w_unreachable : world := World false false 0 "" 0 "".
(** no LuaDist, and the bootstrap works *)
Definition w_fresh : world := World false true 0 "" 0 "Installation succesful".
(** LuaDist without md5; install exits with 1 and says there is nothing to do *)
Definition w_noop : world := World true true 0 "" 1 "No packages to install".
(** LuaDist whose [list] exits with 1 *)
Definition w_list_broken : world := World true true 1 "" 0 "".
(** LuaDist whose [install] exits with 0 and whose [list] never shows md5 *)
Definition w_silent : world := World true true 0 "" 0 "".
(** LuaDist with md5 listed *)
Definition w_md5 : world := World true true 0 "md5-1.2" 0 "".

Definition run_wrapper (r : request) (check : bool) (w : world)
  : outcome unit * state world :=
  LuadistWrapper.run_module (task "name" r check) (State w []).

Definition md5_cmd : string := wrapper_cmd req_md5 ["md5"].

Definition bootstrap_call : call :=
  Call LuadistWrapper.setup_cmd true (Some "/env") 6 ""
       "curl: (6) Could not resolve host".

Definition install_call (w : world) : call :=
  Call md5_cmd false (Some "/env") (install_rc w) (install_out w) "".

Definition list_call (w : world) : call :=
  Call (list_cmd "md5") false (Some "/env") (list_rc w) (list_out w) "".
End Runs.

(** ** A host whose installs take effect

    The bootstrap creates the LuaDist binary of [/env]; [luadist install]
    exits with 0 and records its command line, which names the packages;
    [luadist list] prints what was recorded and changes nothing. *)

Module Shelf.
Record world : Type := World {
  luadist : bool;
  listed : string
}.

Definition exists_ (w : world) (p : string) : bool :=
  andb (luadist w) (String.eqb p "/env/LuaDist/bin/luadist").

Definition chdir (w : world) (p : string) : option world :=
  if String.eqb p "/env" then Some w else None.

Definition run (w : world) (cmd : string) (shell : bool) (cwd : option string)
  : world * (Z * string * string) :=
  if String.eqb cmd (@LuadistWrapper.setup_cmd) then
    (World true (listed w), (0%Z, "", ""))
  else if String.prefix "./LuaDist/bin/luadist list " cmd then
    (w, (0%Z, listed w, ""))
  else if String.prefix "./LuaDist/bin/luadist install " cmd then
    (World (luadist w) (listed w ++ cmd), (0%Z, "", ""))
  else (w, (127%Z, "", "command not found")).

#[global] Instance host : Host world := {
  os_path_exists := exists_;
  os_chdir := chdir;
  spawn := run
}.

(** nothing installed yet, not even LuaDist *)
Definition w_empty : world := World false "".
End Shelf.

(** ** Properties *)

Ltac run_step :=
  unfold bind, ret, raise, exit_json, fail_json in *; cbn [fst snd] in *.

Lemma forallb_is_str (l : list string) : forallb is_str (map PyStr l) = true.
Proof. induction l as [|x l IH]; simpl; auto. Qed.

Section Init.
Context {W : Type} {H : Host W}.

(** The framework accepts every request and hands its values, with the
    defaults filled in, to the wrapper module. *)
Lemma wrapper_init (r : request) (st : state W) :
  AnsibleModule_init "luadist_wrapper" LuadistWrapper.module_args false
    (task "name" r false) st
  = (Ret (Module_ [("path", PyStr (r_path r)); ("name", eff_packages r);
                   ("allow_dists", PyStr (policy_str (eff_policy r)));
                   ("dists_repo", PyStr (eff_repo r))] false), st).
Proof.
  destruct r as [p [l|] [[]|] [u|]]; cbn;
    rewrite ?forallb_is_str; reflexivity.
Qed.

(** A check-mode run of the wrapper module is skipped by the framework. *)
Lemma wrapper_init_check (r : request) (st : state W) :
  AnsibleModule_init "luadist_wrapper" LuadistWrapper.module_args false
    (task "name" r true) st
  = (ExitJson [("skipped", PyBool true);
               ("msg", PyStr "remote module (luadist_wrapper) does not support check mode")],
     st).
Proof.
  destruct r as [p [l|] [[]|] [u|]]; reflexivity.
Qed.

Lemma basic_init (r : request) (check : bool) (st : state W) :
  exists ps,
    AnsibleModule_init "luadist" Luadist.module_args true
      (task "package" r check) st
    = (Ret (Module_ ps check), st).
Proof.
  destruct r as [p [l|] [[]|] [u|]], check; cbn;
    rewrite ?forallb_is_str; eexists; reflexivity.
Qed.
End Init.

Lemma str_app_assoc (a b c : string) : (a ++ b) ++ c = a ++ (b ++ c).
Proof. induction a as [|x a IH]; simpl; [reflexivity | now rewrite IH]. Qed.

Lemma str_app_nil_r (a : string) : a ++ "" = a.
Proof. induction a as [|x a IH]; simpl; [reflexivity | now rewrite IH]. Qed.

(** The two flags the code computes from the [allow_dists] string are
    those of the dist-policy table. *)
Lemma policy_flags (pol : dist_policy) :
  (if py_eq_str (PyStr (policy_str pol)) "binary" then ("false", "true")
   else if py_eq_str (PyStr (policy_str pol)) "source" then ("true", "false")
   else ("true", "true"))
  = (bool_str (source_allowed pol), bool_str (binary_allowed pol)).
Proof. destruct pol; reflexivity. Qed.

Lemma install_command_assoc (flag : string) (pkgs : list string)
    (pol : dist_policy) (repo : string) :
  (("./LuaDist/bin/luadist install " ++ pkg_words pkgs)
     ++ (" -source=" ++ bool_str (source_allowed pol)
           ++ " -binary=" ++ bool_str (binary_allowed pol)))
    ++ (((flag ++ dquote) ++ repo) ++ dquote)
  = install_command flag pkgs pol repo.
Proof. unfold install_command. now rewrite !str_app_assoc. Qed.

Section WrapperFacts.
Context {W : Type} {H : Host W}.

Lemma wrapper_add_packages (pkgs : list string) :
  forall (acc : string) (st : state W),
    LuadistWrapper.add_packages acc (map PyStr pkgs) st
    = (Ret (acc ++ pkg_words pkgs), st).
Proof.
  induction pkgs as [|p pkgs IH]; intros acc st; simpl.
  - now rewrite str_app_nil_r.
  - run_step. rewrite IH. now rewrite !str_app_assoc.
Qed.

(** What [_install_packages] does: it runs the install command once, in
    [path], and fails only on a non-zero exit code whose output lacks
    the no-op phrase. *)
Lemma wrapper_install (m : AnsibleModule) (path : string) (pkgs : list string)
    (pol : dist_policy) (repo : string) (st : state W)
    (w' : W) (rc : Z) (out err : string) :
  let cmd := install_command " -repos=" pkgs pol repo in
  spawn (world st) cmd false (Some path) = (w', (rc, out, err)) ->
  LuadistWrapper._install_packages m (PyStr path) (str_list pkgs)
    (PyStr (policy_str pol)) (PyStr repo) st
  = (if andb (negb (Z.eqb rc 0))
             (negb (str_contains "No packages to install" out))
     then FailJson (failure rc out err LuadistWrapper.install_failed)
     else Ret cmd,
     State w' (Call cmd false (Some path) rc out err :: calls st)).
Proof.
  intros cmd Hs.
  unfold LuadistWrapper._install_packages, str_list, py_iter.
  run_step. rewrite wrapper_add_packages.
  rewrite policy_flags.
  unfold str_add, run_command. run_step.
  rewrite install_command_assoc. fold cmd. rewrite Hs.
  destruct (andb _ _); reflexivity.
Qed.

(** What [_is_present] does: one [luadist list] in [path]; a non-zero
    exit code is fatal, otherwise the answer is the substring test. *)
Lemma wrapper_is_present (m : AnsibleModule) (path pkg : string) (st : state W)
    (w' : W) (rc : Z) (out err : string) :
  spawn (world st) (list_cmd pkg) false (Some path) = (w', (rc, out, err)) ->
  LuadistWrapper._is_present m (PyStr path) (PyStr pkg) st
  = (if Z.eqb rc 0 then Ret (str_contains pkg out)
     else FailJson (failure rc out err LuadistWrapper.audit_failed),
     State w' (Call (list_cmd pkg) false (Some path) rc out err :: calls st)).
Proof.
  intros Hs. unfold LuadistWrapper._is_present, str_add, run_command, py_in_str.
  run_step. fold (list_cmd pkg). rewrite Hs.
  destruct (Z.eqb rc 0); reflexivity.
Qed.

(** The audit loop only adds [luadist list] calls in [path]; it answers
    whether all packages are listed, or fails on the first non-zero exit
    code, which is then the last call made. *)
Lemma wrapper_audit_inv (m : AnsibleModule) (path : string) (pkgs : list string) :
  forall (st : state W) (o : outcome bool) (st' : state W),
    LuadistWrapper.audit m (PyStr path) (map PyStr pkgs) st = (o, st') ->
    exists new,
      calls st' = (new ++ calls st)%list /\
      Forall (audit_call path pkgs) new /\
      match o with
      | Ret b =>
          Forall (fun c => c_rc c = 0%Z) new /\
          b = all_listed (world st) path pkgs /\
          (b = false -> new <> [])
      | FailJson kw =>
          all_listed (world st) path pkgs = false /\
          exists c rest,
            new = c :: rest /\ c_rc c <> 0%Z /\
            Forall (fun c => c_rc c = 0%Z) rest /\
            kw = failure (c_rc c) (c_out c) (c_err c) LuadistWrapper.audit_failed
      | _ => False
      end.
Proof.
  induction pkgs as [|p pkgs IH]; intros st o st' Hrun; simpl in Hrun.
  - inversion Hrun; subst. exists []. repeat split; auto. discriminate.
  - unfold bind in Hrun.
    destruct (spawn (world st) (list_cmd p) false (Some path))
      as [w1 [[rc out] err]] eqn:Hs.
    rewrite (wrapper_is_present m path p st w1 rc out err Hs) in Hrun.
    assert (Hc : audit_call path (p :: pkgs)
                   (Call (list_cmd p) false (Some path) rc out err)).
    { split; [exists p; split; [now left | reflexivity] | split; reflexivity]. }
    assert (Hmono : forall l, Forall (audit_call path pkgs) l ->
                              Forall (audit_call path (p :: pkgs)) l).
    { intros l Hl. eapply Forall_impl; [|exact Hl].
      intros c [[q [Hq E]] R]. split; [exists q; split; [now right | exact E] | exact R]. }
    simpl. rewrite Hs.
    destruct (Z.eqb rc 0) eqn:Hrc.
    + apply Z.eqb_eq in Hrc. subst rc.
      destruct (str_contains p out) eqn:Hin; simpl in Hrun.
      * apply IH in Hrun. destruct Hrun as [new [Hcalls [Hall Ho]]].
        simpl in Hcalls.
        exists (new ++ [Call (list_cmd p) false (Some path) 0 out err])%list.
        split; [now rewrite <- app_assoc|].
        apply Hmono in Hall.
        split; [apply Forall_app; split; auto|].
        destruct o as [b|kw|kw|e]; auto.
        -- destruct Ho as [Hz [Hb Hne]]. simpl in Hb.
           repeat split; auto.
           ++ apply Forall_app; split; auto.
           ++ intros _ Hnil. apply app_eq_nil in Hnil. destruct Hnil; discriminate.
        -- destruct Ho as [Hl [c [rest [Hnew [Hrc' [Hz Hkw]]]]]]. simpl in Hl.
           split; [exact Hl|].
           exists c, (rest ++ [Call (list_cmd p) false (Some path) 0 out err])%list.
           subst new. repeat split; auto.
           apply Forall_app; split; auto.
      * inversion Hrun; subst. simpl.
        exists [Call (list_cmd p) false (Some path) 0 out err].
        repeat split; auto. discriminate.
    + inversion Hrun; subst. simpl.
      exists [Call (list_cmd p) false (Some path) rc out err].
      repeat split; auto. eexists _, []. repeat split; auto.
      simpl. now apply Z.eqb_neq.
Qed.
End WrapperFacts.

Section WrapperRun.
Context {W : Type} {H : Host W}.

(** The code after the bootstrap step, from the state [State w1 boot]. *)
Lemma wrapper_after_bootstrap (r : request) (w w1 : W) (boot : list call)
    (changed : bool) (m : AnsibleModule) (o : outcome unit) (st' : state W) :
  boot_step w (r_path r) = (w1, boot) ->
  os_path_exists w1 (luadist_bin (r_path r)) = true ->
  changed = negb (os_path_exists w (luadist_bin (r_path r))) ->
  (items <- py_iter (eff_packages r) ;;
   all_present <- LuadistWrapper.audit m (PyStr (r_path r)) items ;;
   res <-
     (if negb all_present then
        let res := dict_set "changed" (PyBool true) (result changed "" r) in
        cmd <- LuadistWrapper._install_packages m (PyStr (r_path r)) (eff_packages r)
                 (PyStr (policy_str (eff_policy r))) (PyStr (eff_repo r)) ;;
        ret (dict_set "cmd" (PyStr cmd) res)
      else ret (result changed "" r)) ;;
   exit_json res) (State w1 boot) = (o, st') ->
  wrapper_run r w o st'.
Proof.
  intros Hboot Hex Hch Hrun.
  destruct (r_packages r) as [pkgs|] eqn:Hp.
  2:{ assert (Heff : eff_packages r = PyNone)
        by (unfold eff_packages; now rewrite Hp).
      rewrite Heff in Hrun. simpl in Hrun. run_step.
      inversion Hrun; subst o st'.
      eapply WR_no_list; eauto. }
  assert (Heff : eff_packages r = str_list pkgs)
    by (unfold eff_packages; now rewrite Hp).
  rewrite Heff in Hrun.
  unfold bind at 1 in Hrun. simpl in Hrun. unfold bind at 1 in Hrun.
  destruct (LuadistWrapper.audit m (PyStr (r_path r)) (map PyStr pkgs) (State w1 boot))
    as [oa sta] eqn:Ha.
  apply wrapper_audit_inv in Ha. destruct Ha as [new [Hcalls [Hall Ho]]].
  simpl in Hcalls, Ho. destruct sta as [w2 cs2]. simpl in Hcalls. subst cs2.
  destruct oa as [b|kw|kw|e]; try contradiction.
  - destruct Ho as [Hz [Hb Hne]]. destruct b; simpl in Hrun.
    + run_step. inversion Hrun; subst o st'. rewrite Hch.
      eapply WR_converged; eauto.
    + unfold bind at 1 2 in Hrun.
      destruct (spawn w2 (wrapper_cmd r pkgs) false (Some (r_path r)))
        as [w3 [[rc out] err]] eqn:Hs.
      rewrite (wrapper_install m (r_path r) pkgs (eff_policy r) (eff_repo r)
                 (State w2 (new ++ boot)%list) w3 rc out err Hs) in Hrun.
      fold (wrapper_cmd r pkgs) in Hrun.
      pose proof (WR_installed r w w1 boot pkgs w2 new w3 rc out err
                    Hboot Hex Hp (eq_sym Hb) Hall Hz (Hne eq_refl) Hs) as HR.
      destruct (andb _ _); run_step; inversion Hrun; subst o st'; exact HR.
  - destruct Ho as [Hl [c [rest [Hnew [Hrc [Hz Hkw]]]]]]. subst new kw.
    inversion Hrun; subst o st'.
    eapply WR_audit_failed; eauto.
Qed.

(** Every run of the wrapper module outside check mode ends in one of
    the ways of [wrapper_run]. *)
Lemma wrapper_run_sound (r : request) (w : W) (o : outcome unit) (st' : state W) :
  LuadistWrapper.run_module (task "name" r false) (State w []) = (o, st') ->
  wrapper_run r w o st'.
Proof.
  unfold LuadistWrapper.run_module. unfold bind at 1.
  rewrite wrapper_init.
  unfold bind at 1 2 3 4. cbn [params py_getitem dict_get String.eqb Ascii.eqb Bool.eqb ret].
  unfold bind at 1.
  unfold LuadistWrapper._luadist_is_present at 1, py_path_join, py_path_exists.
  unfold bind at 1. cbn [ret world]. fold (luadist_bin (r_path r)).
  destruct (os_path_exists w (luadist_bin (r_path r))) eqn:Hex0; cbn [negb ret].
  - intros Hrun.
    eapply (wrapper_after_bootstrap r w w [] false); try exact Hrun;
      unfold boot_step; rewrite ?Hex0; auto.
  - unfold LuadistWrapper._setup_luadist, run_command.
    unfold bind at 1 2 3.
    destruct (spawn w LuadistWrapper.setup_cmd true (Some (r_path r)))
      as [w1 [[rc out] err]] eqn:Hs.
    cbn [world calls].  rewrite Hs.
    unfold LuadistWrapper._luadist_is_present at 1, py_path_join, py_path_exists.
    unfold bind at 1 2. cbn [ret world]. fold (luadist_bin (r_path r)).
    destruct (os_path_exists w1 (luadist_bin (r_path r))) eqn:Hex1; cbn [negb ret].
    + intros Hrun.
      eapply (wrapper_after_bootstrap r w w1 _ true); try exact Hrun;
        unfold boot_step; rewrite ?Hex0, ?Hs; auto.
    + unfold fail_json. intros Hrun. inversion Hrun; subst o st'.
      eapply WR_bootstrap_failed; eauto.
Qed.
End WrapperRun.

(** ** The basic module *)

Section BasicFacts.
Context {W : Type} {H : Host W}.

(** Outside check mode a run of the basic module stops at [os.chdir]:
    [path] is the argument-spec entry of the option, a dictionary. *)
Lemma basic_run_raises (r : request) (st : state W) :
  Luadist.run_module (task "package" r false) st = (Raise TypeError, st).
Proof.
  destruct (basic_init r false st) as [ps Hi].
  unfold Luadist.run_module. unfold bind at 1. rewrite Hi. reflexivity.
Qed.

Lemma basic_run_check (r : request) (st : state W) :
  Luadist.run_module (task "package" r true) st
  = (ExitJson [("changed", PyBool false)], st).
Proof.
  destruct (basic_init r true st) as [ps Hi].
  unfold Luadist.run_module. unfold bind at 1. rewrite Hi. reflexivity.
Qed.

Lemma basic_add_packages (pkgs : list string) :
  forall (acc : string) (st : state W),
    Luadist.add_packages acc (map PyStr pkgs) st
    = (Ret (acc ++ pkg_words pkgs), st).
Proof.
  induction pkgs as [|p pkgs IH]; intros acc st; simpl.
  - now rewrite str_app_nil_r.
  - run_step. rewrite IH. now rewrite !str_app_assoc.
Qed.

(** [_setup_luadist] of the basic module runs the bootstrap and returns. *)
Lemma basic_setup (m : AnsibleModule) (path : string) (st : state W)
    (w' : W) (rc : Z) (out err : string) :
  spawn (world st) Luadist.setup_cmd false (Some path) = (w', (rc, out, err)) ->
  Luadist._setup_luadist m (PyStr path) st
  = (Ret tt, State w' (Call Luadist.setup_cmd false (Some path) rc out err :: calls st)).
Proof.
  intros Hs. unfold Luadist._setup_luadist, run_command. run_step.
  now rewrite Hs.
Qed.

(** [_is_present] of the basic module never looks at the exit code. *)
Lemma basic_is_present (m : AnsibleModule) (path pkg : string) (st : state W)
    (w' : W) (rc : Z) (out err : string) :
  spawn (world st) (list_cmd pkg) false (Some path) = (w', (rc, out, err)) ->
  Luadist._is_present m (PyStr path) (PyStr pkg) st
  = (Ret (str_contains pkg out),
     State w' (Call (list_cmd pkg) false (Some path) rc out err :: calls st)).
Proof.
  intros Hs. unfold Luadist._is_present, str_add, run_command, py_in_str.
  run_step. fold (list_cmd pkg). now rewrite Hs.
Qed.

(** [_install_packages] of the basic module fails exactly when the
    output lacks its success phrase, whatever the exit code. *)
Lemma basic_install (m : AnsibleModule) (path : string) (pkgs : list string)
    (pol : dist_policy) (repo : string) (st : state W)
    (w' : W) (rc : Z) (out err : string) :
  let cmd := install_command " --repo=" pkgs pol repo in
  spawn (world st) cmd false (Some path) = (w', (rc, out, err)) ->
  Luadist._install_packages m (PyStr path) (str_list pkgs)
    (PyStr (policy_str pol)) (PyStr repo) st
  = (if str_contains "Installation succesful" out then Ret tt
     else FailJson [("msg", PyStr Luadist.install_failed)],
     State w' (Call cmd false (Some path) rc out err :: calls st)).
Proof.
  intros cmd Hs.
  unfold Luadist._install_packages, str_list, py_iter.
  run_step. rewrite basic_add_packages.
  rewrite policy_flags.
  unfold str_add, run_command. run_step.
  rewrite install_command_assoc. fold cmd. rewrite Hs.
  destruct (str_contains _ _); reflexivity.
Qed.
End BasicFacts.

(** ** Telling the calls apart *)

Lemma prefix_app (a b : string) : String.prefix a (a ++ b) = true.
Proof.
  induction a as [|x a IH]; simpl.
  - now destruct b.
  - destruct (ascii_dec x x); [exact IH | congruence].
Qed.

Lemma list_cmd_kind (c : call) (pkg : string) :
  c_cmd c = list_cmd pkg ->
  is_list c = true /\ is_install c = false /\ is_bootstrap c = false.
Proof.
  intros E. unfold is_list, is_install, is_bootstrap. rewrite E.
  repeat split; try reflexivity. apply prefix_app.
Qed.

Lemma install_cmd_kind (c : call) (flag : string) (pkgs : list string)
    (pol : dist_policy) (repo : string) :
  c_cmd c = install_command flag pkgs pol repo ->
  is_list c = false /\ is_install c = true /\ is_bootstrap c = false.
Proof.
  intros E. unfold is_list, is_install, is_bootstrap. rewrite E.
  repeat split; try reflexivity. apply prefix_app.
Qed.

Lemma audit_calls_kind (path : string) (pkgs : list string) (l : list call) :
  Forall (audit_call path pkgs) l ->
  Forall (fun c => is_list c = true /\ is_install c = false /\ is_bootstrap c = false
                   /\ c_cwd c = Some path) l.
Proof.
  intros Hl. eapply Forall_impl; [|exact Hl].
  intros c [[pkg [_ E]] [_ Hc]]. destruct (list_cmd_kind c pkg E) as [A [B C]].
  repeat split; auto.
Qed.

Section Commands.
Context {W : Type} {H : Host W}.

Lemma wrapper_install_cmd (m : AnsibleModule) (path : string) (pkgs : list string)
    (pol : dist_policy) (repo : string) (st : state W) :
  last_cmd (LuadistWrapper._install_packages m (PyStr path) (str_list pkgs)
              (PyStr (policy_str pol)) (PyStr repo) st)
  = Some (install_command " -repos=" pkgs pol repo).
Proof.
  destruct (spawn (world st) (install_command " -repos=" pkgs pol repo) false (Some path))
    as [w' [[rc out] err]] eqn:Hs.
  rewrite (wrapper_install m path pkgs pol repo st w' rc out err Hs). reflexivity.
Qed.

Lemma basic_install_cmd (m : AnsibleModule) (path : string) (pkgs : list string)
    (pol : dist_policy) (repo : string) (st : state W) :
  last_cmd (Luadist._install_packages m (PyStr path) (str_list pkgs)
              (PyStr (policy_str pol)) (PyStr repo) st)
  = Some (install_command " --repo=" pkgs pol repo).
Proof.
  destruct (spawn (world st) (install_command " --repo=" pkgs pol repo) false (Some path))
    as [w' [[rc out] err]] eqn:Hs.
  rewrite (basic_install m path pkgs pol repo st w' rc out err Hs). reflexivity.
Qed.
End Commands.

(** C7. The dist-policy mapping is exact for the three values of
    [allow_dists], in both modules: the install command that
    [_install_packages] builds and runs carries [-source=true -binary=true]
    for [all], [-source=false -binary=true] for [binary] and
    [-source=true -binary=false] for [source], between the package names
    and the repository option. *)
Theorem dist_policy_mapping {W : Type} {H : Host W}
    (m : AnsibleModule) (path : string) (pkgs : list string) (repo : string)
    (st : state W) :
  let wrapper allow :=
    last_cmd (LuadistWrapper._install_packages m (PyStr path) (str_list pkgs)
                (PyStr allow) (PyStr repo) st) in
  let basic allow :=
    last_cmd (Luadist._install_packages m (PyStr path) (str_list pkgs)
                (PyStr allow) (PyStr repo) st) in
  let built flags opt :=
    Some ("./LuaDist/bin/luadist install " ++ pkg_words pkgs ++ flags
            ++ opt ++ dquote ++ repo ++ dquote) in
  (wrapper "all" = built " -source=true -binary=true" " -repos=" /\
   wrapper "binary" = built " -source=false -binary=true" " -repos=" /\
   wrapper "source" = built " -source=true -binary=false" " -repos=") /\
  (basic "all" = built " -source=true -binary=true" " --repo=" /\
   basic "binary" = built " -source=false -binary=true" " --repo=" /\
   basic "source" = built " -source=true -binary=false" " --repo=").
Proof.
  intros wrapper basic built. unfold wrapper, basic, built.
  split; repeat split.
  - exact (wrapper_install_cmd m path pkgs All repo st).
  - exact (wrapper_install_cmd m path pkgs BinaryOnly repo st).
  - exact (wrapper_install_cmd m path pkgs SourceOnly repo st).
  - exact (basic_install_cmd m path pkgs All repo st).
  - exact (basic_install_cmd m path pkgs BinaryOnly repo st).
  - exact (basic_install_cmd m path pkgs SourceOnly repo st).
Qed.

(** C5. A check-mode request, in both modules, ends without any
    subprocess call (so neither bootstrap nor install runs), leaves the
    world as it was, and reports changed=false.  The basic module answers
    itself; the wrapper module, which does not declare check-mode support,
    is skipped by the framework. *)
Theorem check_mode_changes_nothing {W : Type} {H : Host W} (r : request) (w : W) :
  (exists kw,
     Luadist.run_module (task "package" r true) (State w []) = (ExitJson kw, State w [])
     /\ reported_changed kw = false) /\
  (exists kw,
     LuadistWrapper.run_module (task "name" r true) (State w []) = (ExitJson kw, State w [])
     /\ reported_changed kw = false).
Proof.
  split.
  - eexists. split; [apply basic_run_check | reflexivity].
  - eexists. split.
    + unfold LuadistWrapper.run_module. unfold bind at 1.
      rewrite wrapper_init_check. reflexivity.
    + reflexivity.
Qed.

(** C2 (defect of the basic module).  The basic module reads [path],
    [package], [allow_dists] and [dists_repo] from the argument spec, not
    from the parameters of the request: whatever the request, [path] is
    the dictionary that describes the option, and outside check mode the
    run ends with a [TypeError] at [os.chdir], before any subprocess. *)
Theorem basic_module_ignores_request {W : Type} {H : Host W} (r : request) (w : W) :
  py_getitem Luadist.module_args "path" (State w [])
  = (Ret (PyDict [("type", PyStr "str"); ("required", PyBool true)]), State w [])
  /\ Luadist.run_module (task "package" r false) (State w [])
     = (Raise TypeError, State w []).
Proof.
  split; [reflexivity | apply basic_run_raises].
Qed.

Section BootStep.
Context {W : Type} {H : Host W}.

Lemma boot_step_present (w : W) (path : string) :
  os_path_exists w (luadist_bin path) = true ->
  boot_step w path = (w, []).
Proof. intros E. unfold boot_step. now rewrite E. Qed.

Lemma boot_step_absent (w w1 : W) (path : string) (rc : Z) (out err : string) :
  os_path_exists w (luadist_bin path) = false ->
  spawn w LuadistWrapper.setup_cmd true (Some path) = (w1, (rc, out, err)) ->
  boot_step w path
  = (w1, [Call LuadistWrapper.setup_cmd true (Some path) rc out err]).
Proof. intros E Hs. unfold boot_step. now rewrite E, Hs. Qed.

(** The bootstrap step makes at most one call, the bootstrap command in
    [path], and makes it exactly when the binary is absent. *)
Lemma boot_step_calls (w w1 : W) (path : string) (boot : list call) :
  boot_step w path = (w1, boot) ->
  Forall (fun c => is_bootstrap c = true /\ is_list c = false /\ is_install c = false
                   /\ c_cwd c = Some path) boot
  /\ existsb is_bootstrap boot = negb (os_path_exists w (luadist_bin path)).
Proof.
  unfold boot_step.
  destruct (os_path_exists w (luadist_bin path)).
  - intros E; inversion E; subst. split; [constructor | reflexivity].
  - destruct (spawn w LuadistWrapper.setup_cmd true (Some path)) as [w2 [[rc out] err]].
    intros E; inversion E; subst. split; [|reflexivity].
    constructor; [|constructor]. repeat split; reflexivity.
Qed.
End BootStep.

(** X1. What the basic module misses, the wrapper module does: every
    subprocess of a run has the request's path as working directory, and
    is the bootstrap, a [luadist list] of a requested package, or the
    install command for the request's packages, policy and repository. *)
Lemma wrapper_uses_request {W : Type} {H : Host W}
    (r : request) (w : W) (o : outcome unit) (st' : state W) :
  LuadistWrapper.run_module (task "name" r false) (State w []) = (o, st') ->
  Forall (fun c =>
            c_cwd c = Some (r_path r)
            /\ (c_cmd c = LuadistWrapper.setup_cmd
                \/ (exists pkg, In pkg (pkgs_of r) /\ c_cmd c = list_cmd pkg)
                \/ c_cmd c = install_command " -repos=" (pkgs_of r)
                               (eff_policy r) (eff_repo r)))
         (calls st').
Proof.
  intros Hrun. apply wrapper_run_sound in Hrun.
  assert (Hboot : forall w1 boot,
    boot_step w (r_path r) = (w1, boot) ->
    Forall (fun c => c_cwd c = Some (r_path r)
                     /\ (c_cmd c = LuadistWrapper.setup_cmd
                         \/ (exists pkg, In pkg (pkgs_of r) /\ c_cmd c = list_cmd pkg)
                         \/ c_cmd c = install_command " -repos=" (pkgs_of r)
                                        (eff_policy r) (eff_repo r))) boot).
  { intros w1 boot. unfold boot_step.
    destruct (os_path_exists w (luadist_bin (r_path r))).
    - intros E; inversion E; constructor.
    - destruct (spawn w LuadistWrapper.setup_cmd true (Some (r_path r)))
        as [w2 [[rc out] err]].
      intros E; inversion E. constructor; [|constructor]. split; [reflexivity | now left]. }
  assert (Hlist : forall pkgs l,
    r_packages r = Some pkgs ->
    Forall (audit_call (r_path r) pkgs) l ->
    Forall (fun c => c_cwd c = Some (r_path r)
                     /\ (c_cmd c = LuadistWrapper.setup_cmd
                         \/ (exists pkg, In pkg (pkgs_of r) /\ c_cmd c = list_cmd pkg)
                         \/ c_cmd c = install_command " -repos=" (pkgs_of r)
                                        (eff_policy r) (eff_repo r))) l).
  { intros pkgs l Hp Hl. eapply Forall_impl; [|exact Hl].
    intros c [Hc [_ Hd]]. split; [exact Hd|]. right; left.
    unfold pkgs_of. now rewrite Hp. }
  inversion Hrun; subst; cbn [calls].
  - constructor; [|constructor]. split; [reflexivity | now left].
  - eauto.
  - apply Forall_app; split; eauto.
  - apply Forall_app; split; eauto.
  - constructor; [|apply Forall_app; split; eauto].
    split; [reflexivity|]. right; right. cbn [c_cmd].
    unfold wrapper_cmd, pkgs_of.
    match goal with E : r_packages r = Some _ |- _ => now rewrite E end.
Qed.

(** C3, as the code has it.  In the wrapper module, on a path where the
    LuaDist binary is absent the bootstrap command is the first
    subprocess call of the run; when the binary is still absent in the
    world the bootstrap leaves, the run fails with the exit code, stdout
    and stderr of the bootstrap, and that one call is the only subprocess
    call: no retry, no audit, no install.  [_setup_luadist] of the basic
    module runs the bootstrap once and returns, without looking at the
    binary again. *)
Theorem bootstrap_failure_is_fatal {W : Type} {H : Host W}
    (r : request) (w w1 : W) (rc : Z) (out err : string) :
  os_path_exists w (luadist_bin (r_path r)) = false ->
  spawn w LuadistWrapper.setup_cmd true (Some (r_path r)) = (w1, (rc, out, err)) ->
  let boot := Call LuadistWrapper.setup_cmd true (Some (r_path r)) rc out err in
  (forall o st',
     LuadistWrapper.run_module (task "name" r false) (State w []) = (o, st') ->
     exists later, calls st' = (later ++ [boot])%list) /\
  (os_path_exists w1 (luadist_bin (r_path r)) = false ->
   LuadistWrapper.run_module (task "name" r false) (State w [])
   = (FailJson (failure rc out err LuadistWrapper.setup_failed), State w1 [boot])) /\
  (forall m st w' rc' out' err',
     spawn (world st) Luadist.setup_cmd false (Some (r_path r)) = (w', (rc', out', err')) ->
     Luadist._setup_luadist m (PyStr (r_path r)) st
     = (Ret tt,
        State w' (Call Luadist.setup_cmd false (Some (r_path r)) rc' out' err' :: calls st))).
Proof.
  intros Hex Hs boot.
  pose proof (boot_step_absent w w1 (r_path r) rc out err Hex Hs) as Hb.
  assert (Hshape : forall o st',
    LuadistWrapper.run_module (task "name" r false) (State w []) = (o, st') ->
    (exists later, calls st' = (later ++ [boot])%list) /\
    (os_path_exists w1 (luadist_bin (r_path r)) = false ->
     o = FailJson (failure rc out err LuadistWrapper.setup_failed) /\ st' = State w1 [boot])).
  { intros o st' Hrun. apply wrapper_run_sound in Hrun.
    inversion Hrun; subst;
      repeat match goal with
             | E : boot_step _ _ = _ |- _ => rewrite Hb in E; inversion E; subst; clear E
             | E : spawn w _ _ _ = (?x, _) |- _ =>
                 lazymatch x with
                 | w1 => fail
                 | _ => rewrite Hs in E; inversion E; subst; clear E
                 end
             end;
      (split;
       [ first [ exists []; reflexivity
               | eexists; reflexivity
               | eexists; rewrite app_comm_cons; reflexivity ]
       | intros Hn; try congruence; split; reflexivity ]). }
  split; [|split].
  - intros o st' Hrun. exact (proj1 (Hshape o st' Hrun)).
  - intros Hn.
    destruct (LuadistWrapper.run_module (task "name" r false) (State w [])) as [o st'] eqn:Hrun.
    destruct (Hshape o st' eq_refl) as [_ Hf]. destruct (Hf Hn). now subst.
  - intros m st w' rc' out' err' Hs'. now apply basic_setup.
Qed.

(** Case analysis on the membership of a call in the calls of a run. *)
Ltac split_in Hin :=
  repeat match type of Hin with
         | In _ (_ :: _) => destruct Hin as [Hin|Hin]
         | In _ (_ ++ _)%list => apply in_app_or in Hin; destruct Hin as [Hin|Hin]
         | In _ [] => contradiction
         end.

Ltac use_forall :=
  repeat match goal with
         | HF : Forall _ (_ :: _) |- _ =>
             let F := fresh "F" in
             apply Forall_cons_iff in HF; destruct HF as [F HF]; cbv beta in F
         | HF : Forall _ ?l, Hin : In ?c ?l |- _ =>
             let F := fresh "F" in
             pose proof (proj1 (Forall_forall _ _) HF c Hin) as F;
             cbv beta in F; clear HF
         end.

Ltac run_cases Hrun :=
  apply wrapper_run_sound in Hrun; inversion Hrun; subst; clear Hrun;
  repeat match goal with
         | E : boot_step _ _ = _ |- _ =>
             apply boot_step_calls in E; destruct E as [? ?]
         | HF : Forall (audit_call _ _) _ |- _ => apply audit_calls_kind in HF
         end.

(** C4, as the code has it.  In the wrapper module a [luadist list] that
    exits with a non-zero code ends the run: the run fails with that
    call's exit code, stdout and stderr, and the call is the last
    subprocess call made, so no audit or install follows; when the exit
    code is 0 the package is judged present exactly when its name occurs
    in the standard output.  [_is_present] of the basic module never looks
    at the exit code: its answer is the substring test alone. *)
Theorem audit_failure_is_fatal {W : Type} {H : Host W} :
  (forall (r : request) (w : W) (o : outcome unit) (st' : state W) (c : call),
     LuadistWrapper.run_module (task "name" r false) (State w []) = (o, st') ->
     In c (calls st') -> is_list c = true -> c_rc c <> 0%Z ->
     o = FailJson (failure (c_rc c) (c_out c) (c_err c) LuadistWrapper.audit_failed)
     /\ exists rest, calls st' = c :: rest) /\
  (forall m path pkg (st : state W) w' rc out err,
     spawn (world st) (list_cmd pkg) false (Some path) = (w', (rc, out, err)) ->
     LuadistWrapper._is_present m (PyStr path) (PyStr pkg) st
     = (if Z.eqb rc 0 then Ret (str_contains pkg out)
        else FailJson (failure rc out err LuadistWrapper.audit_failed),
        State w' (Call (list_cmd pkg) false (Some path) rc out err :: calls st))) /\
  (forall m path pkg (st : state W) w' rc out err,
     spawn (world st) (list_cmd pkg) false (Some path) = (w', (rc, out, err)) ->
     Luadist._is_present m (PyStr path) (PyStr pkg) st
     = (Ret (str_contains pkg out),
        State w' (Call (list_cmd pkg) false (Some path) rc out err :: calls st))).
Proof.
  split; [|split].
  - intros r w o st' c Hrun Hin Hl Hrc.
    run_cases Hrun; cbn [calls] in Hin; split_in Hin; subst; use_forall;
      try (exfalso; intuition congruence);
      try discriminate.
    split; [reflexivity|]. eexists. reflexivity.
  - intros. now apply wrapper_is_present.
  - intros. now apply basic_is_present.
Qed.

(** C1, as the code has it.  In the wrapper module, when the install
    subprocess exits with a non-zero code the run fails (with that call's
    exit code, stdout and stderr) if and only if the stdout lacks the
    phrase "No packages to install"; when the stdout has the phrase the
    run ends successfully and reports changed=true, because the install
    step ran, whether or not a bootstrap ran.  [_install_packages] of the
    basic module does not look at the exit code: it fails if and only if
    the stdout lacks "Installation succesful". *)
Theorem install_failure_unless_noop {W : Type} {H : Host W} :
  (forall (r : request) (w : W) (o : outcome unit) (st' : state W) (c : call),
     LuadistWrapper.run_module (task "name" r false) (State w []) = (o, st') ->
     In c (calls st') -> is_install c = true -> c_rc c <> 0%Z ->
     (is_fatal o = true <-> str_contains "No packages to install" (c_out c) = false) /\
     (is_fatal o = true ->
      o = FailJson (failure (c_rc c) (c_out c) (c_err c) LuadistWrapper.install_failed)) /\
     (str_contains "No packages to install" (c_out c) = true ->
      exists kw, o = ExitJson kw /\ reported_changed kw = true)) /\
  (forall m path pkgs pol repo (st : state W) w' rc out err,
     spawn (world st) (install_command " --repo=" pkgs pol repo) false (Some path)
     = (w', (rc, out, err)) ->
     fst (Luadist._install_packages m (PyStr path) (str_list pkgs)
            (PyStr (policy_str pol)) (PyStr repo) st)
     = if str_contains "Installation succesful" out then Ret tt
       else FailJson [("msg", PyStr Luadist.install_failed)]).
Proof.
  split.
  - intros r w o st' c Hrun Hin Hi Hrc.
    run_cases Hrun; cbn [calls] in Hin; split_in Hin; subst; use_forall;
      try (exfalso; intuition congruence);
      try discriminate.
    cbn [c_rc c_out c_err] in *.
    apply Z.eqb_neq in Hrc. rewrite Hrc. cbn [negb andb].
    destruct (str_contains "No packages to install" out); cbn [negb is_fatal].
    + repeat split; try discriminate. eexists. split; reflexivity.
    + repeat split; auto. discriminate.
  - intros m path pkgs pol repo st w' rc out err Hs.
    rewrite (basic_install m path pkgs pol repo st w' rc out err Hs). reflexivity.
Qed.

Lemma existsb_none {A : Type} (f : A -> bool) (l : list A) :
  Forall (fun a => f a = false) l -> existsb f l = false.
Proof.
  induction 1 as [|a l Ha _ IH]; simpl; [reflexivity | now rewrite Ha, IH].
Qed.

Section Changed.
Context {W : Type} {H : Host W}.

Lemma audit_calls_neither (path : string) (l : list call) :
  Forall (fun c => is_list c = true /\ is_install c = false /\ is_bootstrap c = false
                   /\ c_cwd c = Some path) l ->
  existsb (fun c => orb (is_bootstrap c) (is_install c)) l = false.
Proof.
  intros Hl. apply existsb_none. eapply Forall_impl; [|exact Hl].
  intros c [_ [A [B _]]]. now rewrite A, B.
Qed.

Lemma boot_calls_bootstrap (path : string) (l : list call) :
  Forall (fun c => is_bootstrap c = true /\ is_list c = false /\ is_install c = false
                   /\ c_cwd c = Some path) l ->
  existsb (fun c => orb (is_bootstrap c) (is_install c)) l = existsb is_bootstrap l.
Proof.
  induction 1 as [|c l [A [_ [B _]]] _ IH]; simpl; [reflexivity|].
  now rewrite A, B, IH.
Qed.

(** In a successful run of the wrapper module outside check mode,
    [changed] says whether the bootstrap or the install step ran. *)
Lemma wrapper_changed (r : request) (w : W) (kw : kwargs) (st' : state W) :
  LuadistWrapper.run_module (task "name" r false) (State w []) = (ExitJson kw, st') ->
  reported_changed kw = ran_bootstrap_or_install st'.
Proof.
  intros Hrun. unfold ran_bootstrap_or_install.
  run_cases Hrun; cbn [calls].
  - rewrite existsb_app. erewrite audit_calls_neither by eauto.
    erewrite boot_calls_bootstrap by eauto. cbn [orb].
    match goal with E : existsb is_bootstrap _ = _ |- _ => rewrite E end.
    reflexivity.
  - destruct (andb _ _); [discriminate|].
    match goal with E : ExitJson _ = ExitJson _ |- _ => inversion E; subst end.
    cbn [existsb]. unfold is_install at 1. cbn [c_cmd].
    unfold wrapper_cmd, install_command. rewrite prefix_app.
    now rewrite orb_true_r.
Qed.
End Changed.

Section Converged.
Context {W : Type} {H : Host W}.

(** When the binary is there and every requested package is listed, the
    wrapper module ends successfully without bootstrap or install. *)
Lemma wrapper_converged (r : request) (pkgs : list string) (w : W) :
  r_packages r = Some pkgs ->
  os_path_exists w (luadist_bin (r_path r)) = true ->
  all_listed w (r_path r) pkgs = true ->
  exists st',
    LuadistWrapper.run_module (task "name" r false) (State w [])
    = (ExitJson (result false "" r), st')
    /\ ran_bootstrap_or_install st' = false.
Proof.
  intros Hp Hex Hall.
  destruct (LuadistWrapper.run_module (task "name" r false) (State w []))
    as [o st'] eqn:Hrun.
  pose proof Hrun as Hrun'.
  apply wrapper_run_sound in Hrun'.
  pose proof (boot_step_present w (r_path r) Hex) as Hb.
  inversion Hrun'; subst;
    repeat match goal with
           | E : boot_step _ _ = _ |- _ => rewrite Hb in E; inversion E; subst; clear E
           end;
    try congruence.
  rewrite Hex. cbn [negb]. eexists. split; [reflexivity|].
  unfold ran_bootstrap_or_install. cbn [calls]. rewrite app_nil_r.
  eapply audit_calls_neither. eapply audit_calls_kind. eassumption.
Qed.
End Converged.

(** C8. For every successful run, of either module and in or out of check
    mode, the reported [changed] is true if and only if the bootstrap or
    the install subprocess ran.  In particular, in the wrapper module,
    when the LuaDist binary exists and every requested package is listed
    (also when no package is requested) the result is changed=false with
    an empty [cmd], and neither bootstrap nor install ran.  (Outside check
    mode no run of the basic module is successful.) *)
Theorem changed_iff_bootstrap_or_install {W : Type} {H : Host W} :
  (forall (r : request) (check : bool) (w : W) (kw : kwargs) (st' : state W),
     LuadistWrapper.run_module (task "name" r check) (State w []) = (ExitJson kw, st')
     \/ Luadist.run_module (task "package" r check) (State w []) = (ExitJson kw, st') ->
     (reported_changed kw = true <-> ran_bootstrap_or_install st' = true)) /\
  (forall (r : request) (pkgs : list string) (w : W),
     r_packages r = Some pkgs ->
     os_path_exists w (luadist_bin (r_path r)) = true ->
     all_listed w (r_path r) pkgs = true ->
     exists st',
       LuadistWrapper.run_module (task "name" r false) (State w [])
       = (ExitJson [("changed", PyBool false); ("cmd", PyStr "");
                    ("env_path", PyStr (r_path r)); ("name", str_list pkgs)], st')
       /\ ran_bootstrap_or_install st' = false).
Proof.
  split.
  - intros r check w kw st' [Hrun|Hrun].
    + destruct check.
      * unfold LuadistWrapper.run_module in Hrun. unfold bind at 1 in Hrun.
        rewrite wrapper_init_check in Hrun. inversion Hrun; subst.
        split; discriminate.
      * apply wrapper_changed in Hrun. now rewrite Hrun.
    + destruct check.
      * rewrite basic_run_check in Hrun. inversion Hrun; subst.
        split; discriminate.
      * rewrite basic_run_raises in Hrun. discriminate.
  - intros r pkgs w Hp Hex Hall.
    destruct (wrapper_converged r pkgs w Hp Hex Hall) as [st' [Hrun Hno]].
    exists st'. split; [|exact Hno].
    rewrite Hrun. unfold result, eff_packages. now rewrite Hp.
Qed.

(** C10. In the wrapper module a request that omits the package list
    gets [None] for [name] from the framework, and the audit loop over it
    raises [TypeError] once the bootstrap step is past: the run never ends
    successfully, it makes no subprocess call but the bootstrap (if the
    binary was absent), and it ends with the [TypeError] unless the
    bootstrap itself failed.  The same request with an empty list ends
    successfully. *)
Theorem omitted_package_list_raises {W : Type} {H : Host W}
    (path : string) (pol : option dist_policy) (repo : option string) (w : W) :
  let r := Request path None pol repo in
  let r_empty := Request path (Some []) pol repo in
  let w1 := fst (boot_step w path) in
  let run := LuadistWrapper.run_module (task "name" r false) (State w []) in
  (forall st : state W,
     exists m,
       AnsibleModule_init "luadist_wrapper" LuadistWrapper.module_args false
         (task "name" r false) st = (Ret m, st)
       /\ dict_get "name" (params m) = Some PyNone) /\
  snd run = State w1 (snd (boot_step w path)) /\
  (if os_path_exists w1 (luadist_bin path)
   then fst run = Raise TypeError
   else is_fatal (fst run) = true) /\
  (os_path_exists w1 (luadist_bin path) = true ->
   exists st',
     LuadistWrapper.run_module (task "name" r_empty false) (State w [])
     = (ExitJson (result (negb (os_path_exists w (luadist_bin path))) "" r_empty), st')).
Proof.
  intros r r_empty w1 run.
  split; [|split; [|split]].
  - intros st. rewrite wrapper_init. eexists. split; reflexivity.
  - subst run w1.
    destruct (LuadistWrapper.run_module (task "name" r false) (State w []))
      as [o st'] eqn:Hrun.
    apply wrapper_run_sound in Hrun.
    inversion Hrun; subst; cbn [r_path r_packages r] in *; try discriminate.
    + erewrite boot_step_absent by eauto. reflexivity.
    + match goal with E : boot_step _ _ = _ |- _ => rewrite E end. reflexivity.
  - subst run w1.
    destruct (LuadistWrapper.run_module (task "name" r false) (State w []))
      as [o st'] eqn:Hrun.
    apply wrapper_run_sound in Hrun.
    inversion Hrun; subst; cbn [r_path r_packages r] in *; try discriminate.
    + erewrite boot_step_absent by eauto. cbn [fst].
      match goal with E : os_path_exists _ _ = false |- _ => rewrite E end.
      reflexivity.
    + match goal with E : boot_step _ _ = _ |- _ => rewrite E end. cbn [fst].
      match goal with E : os_path_exists _ _ = true |- _ => rewrite E end.
      reflexivity.
  - subst w1. intros Hex.
    destruct (LuadistWrapper.run_module (task "name" r_empty false) (State w []))
      as [o st'] eqn:Hrun.
    apply wrapper_run_sound in Hrun.
    inversion Hrun; subst; cbn [r_path r_packages r_empty] in *;
      repeat match goal with
             | E : Some _ = Some _ |- _ => inversion E; subst; clear E
             end;
      cbn [all_listed] in *; try discriminate.
    + erewrite boot_step_absent in Hex by eauto. cbn [fst] in Hex. congruence.
    + eexists. reflexivity.
Qed.

(** ** The words of the install command *)

Lemma words_no_space (s : string) : no_space s = true -> words s = [s].
Proof.
  induction s as [|c s IH]; simpl; [reflexivity|].
  intros Hs. apply andb_true_iff in Hs. destruct Hs as [Hc Hs].
  apply negb_true_iff in Hc. rewrite Hc, (IH Hs). reflexivity.
Qed.

Lemma words_cons_space (a b : string) :
  no_space a = true -> words (a ++ String " " b) = a :: words b.
Proof.
  induction a as [|c a IH]; simpl; [reflexivity|].
  intros Hs. apply andb_true_iff in Hs. destruct Hs as [Hc Hs].
  apply negb_true_iff in Hc. rewrite Hc, (IH Hs). reflexivity.
Qed.

Lemma no_space_app (a b : string) :
  no_space (a ++ b) = andb (no_space a) (no_space b).
Proof.
  induction a as [|c a IH]; simpl; [reflexivity|].
  now rewrite IH, andb_assoc.
Qed.

Lemma words_pkg_words (pkgs : list string) (rest : string) :
  forallb no_space pkgs = true ->
  words (pkg_words pkgs ++ rest) = (pkgs ++ words rest)%list.
Proof.
  induction pkgs as [|p pkgs IH]; simpl; [reflexivity|].
  intros Hs. apply andb_true_iff in Hs. destruct Hs as [Hp Hs].
  rewrite str_app_assoc.
  change (" " ++ pkg_words pkgs) with (String " " (pkg_words pkgs)).
  change (String " " (pkg_words pkgs) ++ rest)
    with (String " " (pkg_words pkgs ++ rest)).
  rewrite (words_cons_space p _ Hp), (IH Hs). reflexivity.
Qed.

(** Split at the blanks, the install command is the program, [install],
    the requested names in request order, an empty word (the command has
    two blanks before the flags), the two flags and the quoted
    repository. *)
Lemma install_command_words (flag : string) (pkgs : list string)
    (pol : dist_policy) (repo : string) :
  forallb no_space pkgs = true ->
  no_space flag = true ->
  no_space repo = true ->
  words (install_command (String " " flag) pkgs pol repo)
  = "./LuaDist/bin/luadist" :: "install"
      :: (pkgs ++ [""; ("-source=" ++ bool_str (source_allowed pol))%string;
                   ("-binary=" ++ bool_str (binary_allowed pol))%string;
                   (flag ++ dquote ++ repo ++ dquote)%string])%list.
Proof.
  intros Hp Hf Hr. unfold install_command.
  change ("./LuaDist/bin/luadist install " ++ ?x)
    with ("./LuaDist/bin/luadist" ++ String " " ("install" ++ String " " x)).
  rewrite (words_cons_space "./LuaDist/bin/luadist" _ eq_refl).
  rewrite (words_cons_space "install" _ eq_refl).
  rewrite (words_pkg_words pkgs _ Hp).
  do 2 f_equal. f_equal.
  assert (Hlast : no_space (flag ++ dquote ++ repo ++ dquote) = true).
  { rewrite !no_space_app, Hf, Hr. reflexivity. }
  destruct pol; cbn -[words no_space String.append dquote];
    change (" -source=" ++ ?x) with (String " " ("-source=" ++ x)).
  all: cbn [words Ascii.eqb Bool.eqb]; f_equal.
  all: match goal with
       | |- words ("-source=" ++ ?s ++ " -binary=" ++ ?b ++ _) = _ =>
           change (words (("-source=" ++ s)
                            ++ String " " (("-binary=" ++ b)
                                             ++ String " " (flag ++ dquote ++ repo ++ dquote)))
                   = ["-source=" ++ s; "-binary=" ++ b; flag ++ dquote ++ repo ++ dquote]);
           rewrite (words_cons_space ("-source=" ++ s) _ eq_refl);
           rewrite (words_cons_space ("-binary=" ++ b) _ eq_refl);
           rewrite (words_no_space _ Hlast); reflexivity
       end.
Qed.

(** C6. When the wrapper module runs an install, the command is the one
    of the specification for the request: the requested names once each
    and in request order, then the [-source] and [-binary] flags, then the
    quoted repository; a successful run returns exactly that string as
    [cmd].  A successful run that installed nothing returns the empty
    string as [cmd]. *)
Theorem install_command_shape {W : Type} {H : Host W} :
  (forall (r : request) (w : W) (o : outcome unit) (st' : state W) (c : call),
     LuadistWrapper.run_module (task "name" r false) (State w []) = (o, st') ->
     In c (calls st') -> is_install c = true ->
     exists pkgs,
       r_packages r = Some pkgs
       /\ c_cmd c = install_command " -repos=" pkgs (eff_policy r) (eff_repo r)
       /\ forall kw, o = ExitJson kw -> dict_get "cmd" kw = Some (PyStr (c_cmd c))) /\
  (forall (r : request) (w : W) (kw : kwargs) (st' : state W),
     LuadistWrapper.run_module (task "name" r false) (State w []) = (ExitJson kw, st') ->
     existsb is_install (calls st') = false ->
     dict_get "cmd" kw = Some (PyStr "")) /\
  (forall (pkgs : list string) (pol : dist_policy) (repo : string),
     forallb no_space pkgs = true ->
     no_space repo = true ->
     words (install_command " -repos=" pkgs pol repo)
     = "./LuaDist/bin/luadist" :: "install"
         :: (pkgs ++ [""; ("-source=" ++ bool_str (source_allowed pol))%string;
                      ("-binary=" ++ bool_str (binary_allowed pol))%string;
                      ("-repos=" ++ dquote ++ repo ++ dquote)%string])%list).
Proof.
  split; [|split].
  - intros r w o st' c Hrun Hin Hi.
    run_cases Hrun; cbn [calls] in Hin; split_in Hin; subst; use_forall;
      try (exfalso; intuition congruence);
      try discriminate.
    exists pkgs. cbn [c_cmd]. repeat split; auto.
    intros kw Hkw. destruct (andb _ _); [discriminate|].
    inversion Hkw; subst. reflexivity.
  - intros r w kw st' Hrun Hno.
    run_cases Hrun; cbn [calls] in Hno.
    + reflexivity.
    + exfalso. cbn [existsb] in Hno. unfold is_install at 1 in Hno. cbn [c_cmd] in Hno.
      unfold wrapper_cmd, install_command in Hno. rewrite prefix_app in Hno.
      discriminate.
  - intros pkgs pol repo Hp Hr.
    exact (install_command_words "-repos=" pkgs pol repo Hp eq_refl Hr).
Qed.

(** Scenario of the specification: no packages, no installation at the
    path: the bootstrap runs and the result is changed=true. *)
Example scenario_bootstrap :
  fst (Runs.run_wrapper Runs.req_base false Runs.w_fresh)
  = ExitJson (result true "" Runs.req_base)
  /\ existsb is_bootstrap (calls (snd (Runs.run_wrapper Runs.req_base false Runs.w_fresh)))
     = true.
Proof. split; vm_compute; reflexivity. Qed.

(** Scenario of the specification: LuaDist without md5, binary dists
    only, custom repository: the install runs, its command carries
    [-source=false -binary=true] and the repository, and [cmd] is that
    command. *)
Example scenario_install_md5 :
  Runs.run_wrapper Runs.req_md5 false Runs.w_silent
  = (ExitJson (result true Runs.md5_cmd Runs.req_md5),
     State Runs.w_silent [Runs.install_call Runs.w_silent; Runs.list_call Runs.w_silent])
  /\ words Runs.md5_cmd
       = ["./LuaDist/bin/luadist"; "install"; "md5"; ""; "-source=false"; "-binary=true";
          "-repos=" ++ dquote ++ "git://example.org/repo.git" ++ dquote].
Proof. split; vm_compute; reflexivity. Qed.

(** Counterexample to C1 as stated.  With LuaDist present and md5 not
    listed, an install that exits with 1 and prints the no-op phrase gives
    changed=true although no bootstrap ran; and [_install_packages] of the
    basic module fails on that same output. *)
Lemma noop_install_counterexample :
  (Runs.run_wrapper Runs.req_md5 false Runs.w_noop
   = (ExitJson (result true Runs.md5_cmd Runs.req_md5),
      State Runs.w_noop [Runs.install_call Runs.w_noop; Runs.list_call Runs.w_noop])
   /\ reported_changed (result true Runs.md5_cmd Runs.req_md5) = true
   /\ existsb is_bootstrap [Runs.install_call Runs.w_noop; Runs.list_call Runs.w_noop]
      = false)
  /\ (Luadist._install_packages Runs.no_module (PyStr "/env") (str_list ["md5"])
        (PyStr "binary") (PyStr "git://example.org/repo.git") (State Runs.w_noop [])
      = (FailJson [("msg", PyStr Luadist.install_failed)],
         State Runs.w_noop
           [Call (install_command " --repo=" ["md5"] BinaryOnly "git://example.org/repo.git")
                 false (Some "/env") 1 "No packages to install" ""])).
Proof. repeat split; vm_compute; reflexivity. Qed.

Lemma install_failure_unless_noop_witness :
  exists kw,
    fst (Runs.run_wrapper Runs.req_md5 false Runs.w_noop) = ExitJson kw
    /\ reported_changed kw = true.
Proof.
  destruct (install_failure_unless_noop (H := Toy.host)) as [Hw _].
  refine (proj2 (proj2 (Hw Runs.req_md5 Runs.w_noop
                          (fst (Runs.run_wrapper Runs.req_md5 false Runs.w_noop))
                          (snd (Runs.run_wrapper Runs.req_md5 false Runs.w_noop))
                          (Runs.install_call Runs.w_noop) _ _ _ _)) _).
  - vm_compute. reflexivity.
  - left. vm_compute. reflexivity.
  - vm_compute. reflexivity.
  - vm_compute. discriminate.
  - vm_compute. reflexivity.
Defined.

(** Counterexample to C3 as stated.  [_setup_luadist] of the basic module
    returns normally when the bootstrap left no binary behind. *)
Lemma bootstrap_unchecked_counterexample :
  Luadist._setup_luadist Runs.no_module (PyStr "/env") (State Runs.w_unreachable [])
  = (Ret tt,
     State Runs.w_unreachable
       [Call Luadist.setup_cmd false (Some "/env") 6 "" "curl: (6) Could not resolve host"])
  /\ os_path_exists Runs.w_unreachable (luadist_bin "/env") = false.
Proof. split; vm_compute; reflexivity. Qed.

Lemma bootstrap_failure_is_fatal_witness :
  Runs.run_wrapper Runs.req_md5 false Runs.w_unreachable
  = (FailJson (failure 6 "" "curl: (6) Could not resolve host" LuadistWrapper.setup_failed),
     State Runs.w_unreachable [Runs.bootstrap_call]).
Proof.
  refine (proj1 (proj2 (bootstrap_failure_is_fatal (H := Toy.host)
                          Runs.req_md5 Runs.w_unreachable Runs.w_unreachable 6 ""
                          "curl: (6) Could not resolve host" _ _)) _);
    vm_compute; reflexivity.
Defined.

(** Counterexample to C4 as stated.  [_is_present] of the basic module
    answers, without failing, when [luadist list] exits with 1. *)
Lemma audit_unchecked_counterexample :
  Luadist._is_present Runs.no_module (PyStr "/env") (PyStr "md5") (State Runs.w_list_broken [])
  = (Ret false, State Runs.w_list_broken [Runs.list_call Runs.w_list_broken])
  /\ c_rc (Runs.list_call Runs.w_list_broken) = 1%Z.
Proof. split; vm_compute; reflexivity. Qed.

Lemma audit_failure_is_fatal_witness :
  fst (Runs.run_wrapper Runs.req_md5 false Runs.w_list_broken)
  = FailJson (failure 1 "" "" LuadistWrapper.audit_failed)
  /\ exists rest,
       calls (snd (Runs.run_wrapper Runs.req_md5 false Runs.w_list_broken))
       = Runs.list_call Runs.w_list_broken :: rest.
Proof.
  destruct (audit_failure_is_fatal (H := Toy.host)) as [Hw _].
  refine (Hw Runs.req_md5 Runs.w_list_broken
             (fst (Runs.run_wrapper Runs.req_md5 false Runs.w_list_broken))
             (snd (Runs.run_wrapper Runs.req_md5 false Runs.w_list_broken))
             (Runs.list_call Runs.w_list_broken) _ _ _ _).
  - vm_compute. reflexivity.
  - left. vm_compute. reflexivity.
  - vm_compute. reflexivity.
  - vm_compute. discriminate.
Defined.

Lemma install_command_shape_witness :
  (exists pkgs,
     r_packages Runs.req_md5 = Some pkgs
     /\ c_cmd (Runs.install_call Runs.w_silent)
        = install_command " -repos=" pkgs (eff_policy Runs.req_md5) (eff_repo Runs.req_md5)
     /\ forall kw,
          fst (Runs.run_wrapper Runs.req_md5 false Runs.w_silent) = ExitJson kw ->
          dict_get "cmd" kw = Some (PyStr (c_cmd (Runs.install_call Runs.w_silent))))
  /\ dict_get "cmd" (result false "" Runs.req_md5) = Some (PyStr "")
  /\ words (install_command " -repos=" ["luacurl"; "luagl"; "md5"] All default_repo)
     = ["./LuaDist/bin/luadist"; "install"; "luacurl"; "luagl"; "md5"; "";
        "-source=true"; "-binary=true"; "-repos=" ++ dquote ++ default_repo ++ dquote].
Proof.
  destruct (install_command_shape (H := Toy.host)) as [Hcmd [Hnone Hwords]].
  split; [|split].
  - refine (Hcmd Runs.req_md5 Runs.w_silent
              (fst (Runs.run_wrapper Runs.req_md5 false Runs.w_silent))
              (snd (Runs.run_wrapper Runs.req_md5 false Runs.w_silent))
              (Runs.install_call Runs.w_silent) _ _ _).
    + vm_compute. reflexivity.
    + left. vm_compute. reflexivity.
    + vm_compute. reflexivity.
  - refine (Hnone Runs.req_md5 Runs.w_md5 (result false "" Runs.req_md5)
              (snd (Runs.run_wrapper Runs.req_md5 false Runs.w_md5)) _ _).
    + vm_compute. reflexivity.
    + vm_compute. reflexivity.
  - refine (Hwords ["luacurl"; "luagl"; "md5"] All default_repo _ _).
    + vm_compute. reflexivity.
    + vm_compute. reflexivity.
Defined.

Lemma changed_iff_bootstrap_or_install_witness :
  (reported_changed (result true Runs.md5_cmd Runs.req_md5) = true
   <-> ran_bootstrap_or_install (snd (Runs.run_wrapper Runs.req_md5 false Runs.w_noop)) = true)
  /\ exists st',
       Runs.run_wrapper Runs.req_md5 false Runs.w_md5
       = (ExitJson [("changed", PyBool false); ("cmd", PyStr "");
                    ("env_path", PyStr "/env"); ("name", str_list ["md5"])], st')
       /\ ran_bootstrap_or_install st' = false.
Proof.
  destruct (changed_iff_bootstrap_or_install (H := Toy.host)) as [Hiff Hconv].
  split.
  - refine (Hiff Runs.req_md5 false Runs.w_noop _ _ (or_introl _)).
    vm_compute. reflexivity.
  - refine (Hconv Runs.req_md5 ["md5"] Runs.w_md5 _ _ _); vm_compute; reflexivity.
Defined.

(** Counterexample to C9 as stated.  In a world that never changes, where
    [luadist install] exits with 0 and [luadist list] never shows md5, the
    first run succeeds, and the second run, in the same world, reports
    changed=true and installs again. *)
Lemma repeated_install_counterexample :
  let first := Runs.run_wrapper Runs.req_md5 false Runs.w_silent in
  let second := Runs.run_wrapper Runs.req_md5 false (world (snd first)) in
  fst first = ExitJson (result true Runs.md5_cmd Runs.req_md5)
  /\ world (snd first) = Runs.w_silent
  /\ fst second = ExitJson (result true Runs.md5_cmd Runs.req_md5)
  /\ world (snd second) = Runs.w_silent
  /\ reported_changed (result true Runs.md5_cmd Runs.req_md5) = true
  /\ existsb is_install (calls (snd second)) = true.
Proof. repeat split; vm_compute; reflexivity. Qed.

Lemma omitted_package_list_raises_witness :
  fst (Runs.run_wrapper (Request "/env" None None None) false Runs.w_md5) = Raise TypeError
  /\ exists st',
       Runs.run_wrapper (Request "/env" (Some []) None None) false Runs.w_md5
       = (ExitJson (result false "" (Request "/env" (Some []) None None)), st').
Proof.
  destruct (omitted_package_list_raises (H := Toy.host) "/env" None None Runs.w_md5)
    as [_ [_ [Hraise Hempty]]].
  split.
  - exact Hraise.
  - refine (Hempty _). vm_compute. reflexivity.
Defined.

(** ** Further properties of the wrapper module *)

Section CallsShape.
Context {W : Type} {H : Host W}.

Lemma boot_step_shape (w w1 : W) (path : string) (boot : list call) :
  boot_step w path = (w1, boot) ->
  (boot = [] /\ os_path_exists w (luadist_bin path) = true)
  \/ (exists rc out err,
        os_path_exists w (luadist_bin path) = false
        /\ boot = [Call LuadistWrapper.setup_cmd true (Some path) rc out err]).
Proof.
  unfold boot_step.
  destruct (os_path_exists w (luadist_bin path)).
  - intros E; inversion E; subst. now left.
  - destruct (spawn w LuadistWrapper.setup_cmd true (Some path)) as [w2 [[rc out] err]].
    intros E; inversion E; subst. right. now exists rc, out, err.
Qed.

(** The calls of a run, most recent first: at most one install, then the
    [luadist list] calls, then at most one bootstrap. *)
Lemma wrapper_calls_shape (r : request) (w : W) (o : outcome unit) (st' : state W) :
  wrapper_run r w o st' ->
  exists inst lists boot,
    calls st' = (inst ++ lists ++ boot)%list
    /\ ((boot = [] /\ os_path_exists w (luadist_bin (r_path r)) = true)
        \/ (exists rc out err,
              os_path_exists w (luadist_bin (r_path r)) = false
              /\ boot = [Call LuadistWrapper.setup_cmd true (Some (r_path r)) rc out err]))
    /\ Forall (audit_call (r_path r) (pkgs_of r)) lists
    /\ (inst = []
        \/ exists rc out err,
             inst = [Call (wrapper_cmd r (pkgs_of r)) false (Some (r_path r)) rc out err]).
Proof.
  intros Hrun.
  inversion Hrun; subst; cbn [calls];
    repeat match goal with
           | E : boot_step _ _ = _ |- _ => apply boot_step_shape in E
           end;
    try match goal with
        | E : r_packages r = Some ?l |- _ =>
            assert (Hpk : pkgs_of r = l) by (unfold pkgs_of; now rewrite E);
            rewrite Hpk
        end.
  - exists [], [], [Call LuadistWrapper.setup_cmd true (Some (r_path r)) rc out err].
    repeat split; auto. right. now exists rc, out, err.
  - exists [], [], boot. repeat split; auto.
  - exists [], (c :: rest), boot. repeat split; auto.
  - exists [], lists, boot. repeat split; auto.
  - eexists [_], lists, boot. repeat split; auto.
    right. now exists rc, out, err.
Qed.

Lemma wrapper_run_of (r : request) (w : W) :
  wrapper_run r w
    (fst (LuadistWrapper.run_module (task "name" r false) (State w [])))
    (snd (LuadistWrapper.run_module (task "name" r false) (State w []))).
Proof.
  destruct (LuadistWrapper.run_module (task "name" r false) (State w []))
    as [o st'] eqn:Hrun.
  now apply wrapper_run_sound.
Qed.
End CallsShape.

(** uses [wrapper_calls_shape] on the run of request [r] from world [w] *)
Ltac calls_shape r w :=
  let inst := fresh "inst" in
  let lists := fresh "lists" in
  let boot := fresh "boot" in
  let Hc := fresh "Hcalls" in
  let Hb := fresh "Hboot" in
  let Hl := fresh "Hlists" in
  let Hi := fresh "Hinst" in
  destruct (wrapper_calls_shape r w _ _ (wrapper_run_of r w))
    as [inst [lists [boot [Hc [Hb [Hl Hi]]]]]];
  rewrite Hc;
  destruct Hb as [[? ?]|[? [? [? [? ?]]]]];
  destruct Hi as [?|[? [? [? ?]]]]; subst.

(** X2. The steps of a run of the wrapper module come in a fixed order,
    each subprocess attempted once: at most one bootstrap, then the
    [luadist list] calls, then at most one install, which is the last
    call of the run.  ([calls] holds the most recent call first.) *)
Theorem wrapper_steps_in_order {W : Type} {H : Host W} (r : request) (w : W) :
  exists inst lists boot,
    calls (snd (LuadistWrapper.run_module (task "name" r false) (State w [])))
    = (inst ++ lists ++ boot)%list
    /\ (length inst <= 1)%nat /\ (length boot <= 1)%nat
    /\ Forall (fun c => is_install c = true) inst
    /\ Forall (fun c => is_list c = true) lists
    /\ Forall (fun c => is_bootstrap c = true) boot.
Proof.
  destruct (wrapper_calls_shape r w _ _ (wrapper_run_of r w))
    as [inst [lists [boot [Hc [Hb [Hl Hi]]]]]].
  exists inst, lists, boot. split; [exact Hc|].
  assert (Hlk : Forall (fun c => is_list c = true) lists).
  { apply audit_calls_kind in Hl. eapply Forall_impl; [|exact Hl]. now intros c [A _]. }
  destruct Hb as [[? _]|[rc [out [err [_ ?]]]]];
    destruct Hi as [?|[rc' [out' [err' ?]]]]; subst; cbn [length];
    repeat split; auto; try lia;
    repeat constructor.
  all: unfold is_install; cbn [c_cmd]; unfold wrapper_cmd, install_command;
    apply prefix_app.
Qed.

(** X3. Whatever the outcome of the run, the wrapper module runs the
    bootstrap exactly when the LuaDist binary is absent at the start. *)
Theorem bootstrap_iff_binary_absent {W : Type} {H : Host W} (r : request) (w : W) :
  existsb is_bootstrap
    (calls (snd (LuadistWrapper.run_module (task "name" r false) (State w []))))
  = negb (os_path_exists w (luadist_bin (r_path r))).
Proof.
  calls_shape r w; rewrite !existsb_app;
    match goal with E : os_path_exists _ _ = _ |- _ => rewrite E end;
    (rewrite (existsb_none is_bootstrap lists);
     [| apply audit_calls_kind in Hlists; eapply Forall_impl; [|exact Hlists];
        now intros c [_ [_ [A _]]]]);
    reflexivity.
Qed.

(** X4. Only the bootstrap goes through a shell: the wrapper module
    passes [use_unsafe_shell] for the bootstrap command and for no
    [luadist] command, so package names and the repository never reach a
    shell. *)
Theorem shell_only_for_bootstrap {W : Type} {H : Host W} (r : request) (w : W) :
  Forall (fun c => c_shell c = is_bootstrap c)
    (calls (snd (LuadistWrapper.run_module (task "name" r false) (State w [])))).
Proof.
  assert (Hl : forall lists,
    Forall (audit_call (r_path r) (pkgs_of r)) lists ->
    Forall (fun c => c_shell c = is_bootstrap c) lists).
  { intros lists Hlists. pose proof (audit_calls_kind _ _ _ Hlists) as Hk.
    rewrite Forall_forall in *. intros c Hin.
    destruct (Hlists c Hin) as [_ [Hs _]]. destruct (Hk c Hin) as [_ [_ [Hb _]]].
    now rewrite Hs, Hb. }
  calls_shape r w; repeat (apply Forall_app; split); auto;
    repeat constructor.
Qed.

(** X5. When a run of the wrapper module fails with one of the module's
    own three messages, the failure carries the exit code, stdout and
    stderr of the last subprocess call made, and the message names the
    step of that call: the bootstrap for "Cannot create LuaDist
    environment ...", a [luadist list] for "Cannot check the status ...",
    the install for "Cannot install ...".  (A failure that the framework's
    [run_command] reports by itself carries another message and is not
    spoken of.) *)
Theorem failure_reports_last_call {W : Type} {H : Host W}
    (r : request) (w : W) (kw : kwargs) (st' : state W) :
  LuadistWrapper.run_module (task "name" r false) (State w []) = (FailJson kw, st') ->
  dict_get "msg" kw = Some (PyStr LuadistWrapper.setup_failed)
  \/ dict_get "msg" kw = Some (PyStr LuadistWrapper.audit_failed)
  \/ dict_get "msg" kw = Some (PyStr LuadistWrapper.install_failed) ->
  exists c rest,
    calls st' = c :: rest
    /\ dict_get "rc" kw = Some (PyInt (c_rc c))
    /\ dict_get "stdout" kw = Some (PyStr (c_out c))
    /\ dict_get "stderr" kw = Some (PyStr (c_err c))
    /\ (dict_get "msg" kw = Some (PyStr LuadistWrapper.setup_failed) ->
        is_bootstrap c = true)
    /\ (dict_get "msg" kw = Some (PyStr LuadistWrapper.audit_failed) ->
        is_list c = true /\ c_rc c <> 0%Z)
    /\ (dict_get "msg" kw = Some (PyStr LuadistWrapper.install_failed) ->
        is_install c = true /\ c_rc c <> 0%Z).
Proof.
  intros Hrun _.
  assert (Hno : forall (a b : string) (P : Prop),
            Some (PyStr a) = Some (PyStr b) -> String.eqb a b = false -> P).
  { intros a b P E Hab. inversion E; subst. rewrite String.eqb_refl in Hab. discriminate. }
  run_cases Hrun; cbn [calls]; use_forall.
  - eexists _, _.
    split; [reflexivity|]. split; [reflexivity|].
    split; [reflexivity|]. split; [reflexivity|].
    split; [intros _; reflexivity|].
    split; intros E; exact (Hno _ _ _ E eq_refl).
  - eexists _, _.
    split; [reflexivity|]. split; [reflexivity|].
    split; [reflexivity|]. split; [reflexivity|].
    split; [intros E; exact (Hno _ _ _ E eq_refl)|].
    split; [intros _; tauto | intros E; exact (Hno _ _ _ E eq_refl)].
  - destruct (Z.eqb rc 0) eqn:Hrc;
      destruct (str_contains "No packages to install" out);
      cbn [negb andb] in *; try discriminate.
    match goal with E : FailJson _ = FailJson _ |- _ => inversion E; subst end.
    eexists _, _.
    split; [reflexivity|]. split; [reflexivity|].
    split; [reflexivity|]. split; [reflexivity|].
    split; [intros E; exact (Hno _ _ _ E eq_refl)|].
    split; [intros E; exact (Hno _ _ _ E eq_refl)|].
    intros _. split.
    + unfold is_install. cbn [c_cmd]. unfold wrapper_cmd, install_command.
      apply prefix_app.
    + cbn [c_rc]. now apply Z.eqb_neq.
Qed.

(** X6. A successful run of the wrapper module echoes the request: its
    [env_path] is the requested path and its [name] the requested package
    list, which was supplied. *)
Theorem result_echoes_request {W : Type} {H : Host W}
    (r : request) (w : W) (kw : kwargs) (st' : state W) :
  LuadistWrapper.run_module (task "name" r false) (State w []) = (ExitJson kw, st') ->
  exists pkgs,
    r_packages r = Some pkgs
    /\ dict_get "env_path" kw = Some (PyStr (r_path r))
    /\ dict_get "name" kw = Some (str_list pkgs).
Proof.
  intros Hrun. apply wrapper_run_sound in Hrun.
  inversion Hrun; subst.
  - exists pkgs. unfold result, eff_packages.
    match goal with E : r_packages r = Some _ |- _ => rewrite E end.
    repeat split; reflexivity.
  - destruct (andb _ _); [discriminate|].
    match goal with E : ExitJson _ = ExitJson _ |- _ => inversion E; subst end.
    exists pkgs. unfold result, eff_packages.
    match goal with E : r_packages r = Some _ |- _ => rewrite E end.
    repeat split; reflexivity.
Qed.

(** X7. An install that exits with 0 is a success whatever it printed:
    the run ends successfully with changed=true and the install command
    as [cmd]. *)
Theorem install_exit_zero_succeeds {W : Type} {H : Host W}
    (r : request) (w : W) (o : outcome unit) (st' : state W) (c : call) :
  LuadistWrapper.run_module (task "name" r false) (State w []) = (o, st') ->
  In c (calls st') -> is_install c = true -> c_rc c = 0%Z ->
  o = ExitJson [("changed", PyBool true); ("cmd", PyStr (c_cmd c));
                ("env_path", PyStr (r_path r)); ("name", eff_packages r)].
Proof.
  intros Hrun Hin Hi Hrc.
  run_cases Hrun; cbn [calls] in Hin; split_in Hin; subst; use_forall;
    try (exfalso; intuition congruence);
    try discriminate.
  cbn [c_rc c_cmd] in *. subst rc. reflexivity.
Qed.

(** X8. When the request names neither a dist policy nor a repository,
    the install command allows source and binary dists and names the
    public LuaDist repository. *)
Theorem install_command_defaults {W : Type} {H : Host W}
    (r : request) (w : W) (c : call) :
  r_policy r = None ->
  r_repo r = None ->
  In c (calls (snd (LuadistWrapper.run_module (task "name" r false) (State w [])))) ->
  is_install c = true ->
  c_cmd c
  = "./LuaDist/bin/luadist install " ++ pkg_words (pkgs_of r)
      ++ " -source=true -binary=true -repos=" ++ dquote
      ++ "git://github.com/LuaDist/Repository.git" ++ dquote.
Proof.
  intros Hpol Hrepo.
  destruct (wrapper_calls_shape r w _ _ (wrapper_run_of r w))
    as [inst [lists [boot [Hc [Hb [Hl Hinst]]]]]].
  rewrite Hc. intros Hin Hi.
  apply audit_calls_kind in Hl.
  split_in Hin.
  - destruct Hinst as [?|[rc [out [err ?]]]]; subst; [contradiction|].
    destruct Hin as [Hin|[]]. subst c. cbn [c_cmd].
    unfold wrapper_cmd, install_command, eff_policy, eff_repo.
    rewrite Hpol, Hrepo. reflexivity.
  - use_forall. exfalso. intuition congruence.
  - destruct Hb as [[? _]|[rc [out [err [_ ?]]]]]; subst; [contradiction|].
    destruct Hin as [Hin|[]]. subst c. discriminate.
Qed.

(** X9. With an empty package list the wrapper module only ensures the
    base environment: the run makes no call but the bootstrap, and it
    succeeds once the binary exists, with changed telling whether the
    bootstrap ran and an empty [cmd]. *)
Theorem empty_package_list_bootstrap_only {W : Type} {H : Host W}
    (r : request) (w : W) :
  r_packages r = Some [] ->
  let run := LuadistWrapper.run_module (task "name" r false) (State w []) in
  let w1 := fst (boot_step w (r_path r)) in
  calls (snd run) = snd (boot_step w (r_path r))
  /\ (os_path_exists w1 (luadist_bin (r_path r)) = true ->
      fst run = ExitJson [("changed", PyBool (negb (os_path_exists w (luadist_bin (r_path r)))));
                          ("cmd", PyStr ""); ("env_path", PyStr (r_path r));
                          ("name", PyList [])]).
Proof.
  intros Hp run w1. subst run w1.
  pose proof (wrapper_run_of r w) as Hrun.
  assert (Hnil : forall l, Forall (audit_call (r_path r) []) l -> l = []).
  { intros [|c l] Hl; [reflexivity|].
    apply Forall_cons_iff in Hl. destruct Hl as [[[pkg [[] _]] _] _]. }
  inversion Hrun as [w2 rc out err Hex Hs Hex1 Ho Hst
                    | w2 boot Hb Hex Hnone Ho Hst
                    | w2 boot pkgs w3 c rest Hb Hex Hsome Hall Hl Hrc Hz Ho Hst
                    | w2 boot pkgs w3 lists Hb Hex Hsome Hall Hl Hz Ho Hst
                    | w2 boot pkgs w3 lists w4 rc out err Hb Hex Hsome Hall Hl Hz Hne Hs Ho Hst];
    try (rewrite Hp in Hsome; inversion Hsome; subst pkgs);
    try congruence.
  - rewrite (boot_step_absent w w2 (r_path r) rc out err Hex Hs). cbn [fst snd calls].
    split; [reflexivity | congruence].
  - apply Hnil in Hl. discriminate.
  - apply Hnil in Hl. subst lists. rewrite Hb. cbn [fst snd app calls].
    split; [reflexivity|]. intros _. unfold result, eff_packages. now rewrite Hp.
  - cbn [all_listed] in Hall. discriminate.
Qed.

(** X10. What a success of the wrapper module means: the LuaDist binary
    existed once the bootstrap step was past; and when the result says
    changed=false, the binary was there from the start and every
    requested package was listed. *)
Theorem success_means_environment {W : Type} {H : Host W}
    (r : request) (w : W) (kw : kwargs) (st' : state W) :
  LuadistWrapper.run_module (task "name" r false) (State w []) = (ExitJson kw, st') ->
  os_path_exists (fst (boot_step w (r_path r))) (luadist_bin (r_path r)) = true
  /\ (reported_changed kw = false ->
      os_path_exists w (luadist_bin (r_path r)) = true
      /\ all_listed w (r_path r) (pkgs_of r) = true).
Proof.
  intros Hrun. apply wrapper_run_sound in Hrun.
  inversion Hrun as [w2 rc out err Hex Hs Hex1 Ho Hst
                    | w2 boot Hb Hex Hnone Ho Hst
                    | w2 boot pkgs w3 c rest Hb Hex Hsome Hall Hl Hrc Hz Ho Hst
                    | w2 boot pkgs w3 lists Hb Hex Hsome Hall Hl Hz Ho Hst
                    | w2 boot pkgs w3 lists w4 rc out err Hb Hex Hsome Hall Hl Hz Hne Hs Ho Hst];
    subst.
  - rewrite Hb. cbn [fst]. split; [exact Hex|].
    unfold reported_changed, result. cbn [dict_get String.eqb Ascii.eqb Bool.eqb].
    intros Hch. apply negb_false_iff in Hch.
    rewrite (boot_step_present w (r_path r) Hch) in Hb. inversion Hb; subst.
    split; [exact Hch|]. unfold pkgs_of. now rewrite Hsome.
  - rewrite Hb. cbn [fst]. split; [exact Hex|].
    destruct (andb _ _); [discriminate|].
    inversion Ho; subst. discriminate.
Qed.

(** ** The presence test *)

Lemma prefix_iff (n h : string) :
  String.prefix n h = true <-> exists b, h = n ++ b.
Proof.
  split.
  - revert h. induction n as [|x n IH]; intros h Hp.
    + now exists h.
    + destruct h as [|y h]; simpl in Hp; [discriminate|].
      destruct (ascii_dec x y) as [->|]; [|discriminate].
      destruct (IH h Hp) as [b ->]. now exists b.
  - intros [b ->]. apply prefix_app.
Qed.

Lemma str_contains_step (n : string) (c : ascii) (h : string) :
  str_contains n h = true -> str_contains n (String c h) = true.
Proof.
  intros Hc. cbn [str_contains].
  destruct (String.prefix n (String c h)); [reflexivity | exact Hc].
Qed.

(** [needle in hay] holds exactly when [hay] is some text, the needle,
    and some text. *)
Lemma str_contains_iff (n h : string) :
  str_contains n h = true <-> exists a b, h = a ++ n ++ b.
Proof.
  split.
  - induction h as [|c h IH]; cbn [str_contains].
    + destruct (String.prefix n "") eqn:Hp; [|discriminate].
      intros _. apply prefix_iff in Hp. destruct Hp as [b Hb]. now exists "", b.
    + destruct (String.prefix n (String c h)) eqn:Hp.
      * intros _. apply prefix_iff in Hp. destruct Hp as [b Hb]. now exists "", b.
      * intros Hc. destruct (IH Hc) as [a [b ->]]. now exists (String c a), b.
  - intros [a [b ->]]. induction a as [|c a IH].
    + cbn [String.append]. destruct (n ++ b) eqn:E.
      * cbn [str_contains]. rewrite <- E, prefix_app. reflexivity.
      * cbn [str_contains]. rewrite <- E, prefix_app. reflexivity.
    + cbn [String.append]. now apply str_contains_step.
Qed.

(** X11. In the wrapper module a package whose [luadist list] exits with
    0 is judged present exactly when the standard output is some text,
    then the name, then some text. *)
Theorem present_iff_name_occurs {W : Type} {H : Host W}
    (m : AnsibleModule) (path pkg : string) (st : state W)
    (w' : W) (out err : string) :
  spawn (world st) (list_cmd pkg) false (Some path) = (w', (0%Z, out, err)) ->
  (fst (LuadistWrapper._is_present m (PyStr path) (PyStr pkg) st) = Ret true
   <-> exists a b, out = a ++ pkg ++ b).
Proof.
  intros Hs. rewrite (wrapper_is_present m path pkg st w' 0 out err Hs).
  cbn [fst Z.eqb]. rewrite <- str_contains_iff.
  split; [now intros E; inversion E | now intros ->].
Qed.

(** X12. The presence test cannot tell a package from a longer name: a
    package whose name is part of a name that the list output shows is
    judged present, and the empty name is always judged present. *)
Theorem present_by_longer_name {W : Type} {H : Host W}
    (m : AnsibleModule) (path pkg : string) (st : state W)
    (w' : W) (out err : string) :
  spawn (world st) (list_cmd pkg) false (Some path) = (w', (0%Z, out, err)) ->
  (forall longer,
     str_contains longer out = true -> str_contains pkg longer = true ->
     fst (LuadistWrapper._is_present m (PyStr path) (PyStr pkg) st) = Ret true)
  /\ (pkg = "" ->
      fst (LuadistWrapper._is_present m (PyStr path) (PyStr pkg) st) = Ret true).
Proof.
  intros Hs. rewrite (wrapper_is_present m path pkg st w' 0 out err Hs).
  cbn [fst Z.eqb]. split.
  - intros longer Hl Hp. f_equal.
    apply str_contains_iff in Hl. destruct Hl as [a [b ->]].
    apply str_contains_iff in Hp. destruct Hp as [a' [b' ->]].
    apply str_contains_iff. exists (a ++ a'), (b' ++ b).
    now rewrite !str_app_assoc.
  - intros ->. f_equal. apply str_contains_iff. now exists "", out.
Qed.


(** ** Requests the framework refuses *)

Lemma choice_ok_all_binary_source (s : string) :
  s <> "all" -> s <> "binary" -> s <> "source" ->
  choice_ok (PyDict [("type", PyStr "str"); ("default", PyStr "all");
                     ("choices", PyList [PyStr "all"; PyStr "binary"; PyStr "source"])])
            (PyStr s) = false.
Proof.
  intros Ha Hb Hs.
  change (existsb (fun c => py_eq_str c s) [PyStr "all"; PyStr "binary"; PyStr "source"]
          = false).
  cbn [existsb py_eq_str].
  apply String.eqb_neq in Ha, Hb, Hs.
  rewrite (String.eqb_sym "all" s), (String.eqb_sym "binary" s),
    (String.eqb_sym "source" s), Ha, Hb, Hs.
  reflexivity.
Qed.

Section Refused.
Context {W : Type} {H : Host W}.

Lemma init_refuses (name : string) (key : string) (supports : bool)
    (inv : invocation) (st : state W) :
  let argument_spec :=
    [ ("path", PyDict [("type", PyStr "str"); ("required", PyBool true)]);
      (key, PyDict [("type", PyStr "list"); ("elements", PyStr "str")]);
      ("allow_dists",
        PyDict [("type", PyStr "str"); ("default", PyStr "all");
                ("choices", PyList [PyStr "all"; PyStr "binary"; PyStr "source"])]);
      ("dists_repo", PyDict [("type", PyStr "str"); ("default", PyStr default_repo)]) ] in
  dict_get "path" (task_args inv) = None
  \/ (exists s, dict_get "allow_dists" (task_args inv) = Some (PyStr s)
                /\ s <> "all" /\ s <> "binary" /\ s <> "source") ->
  andb (task_check_mode inv) (negb supports) = false ->
  exists kw, AnsibleModule_init name argument_spec supports inv st = (FailJson kw, st).
Proof.
  intros argument_spec Hbad Hcheck. unfold AnsibleModule_init.
  destruct (unsupported argument_spec (task_args inv)); [eexists; reflexivity|].
  rewrite Hcheck.
  destruct (missing_required argument_spec (task_args inv)) eqn:Hreq;
    [eexists; reflexivity|].
  destruct Hbad as [Hpath|[s [Hallow [Ha [Hb Hs]]]]].
  - exfalso. unfold missing_required, argument_spec in Hreq.
    cbn [existsb] in Hreq. rewrite Hpath in Hreq. discriminate.
  - destruct (negb (forallb _ argument_spec)); [eexists; reflexivity|].
    assert (Hch : forallb (fun '(k, entry) =>
                             choice_ok entry (param_value (task_args inv) k entry))
                          argument_spec = false).
    { unfold argument_spec. cbn [forallb].
      unfold param_value at 3. rewrite Hallow.
      rewrite (choice_ok_all_binary_source s Ha Hb Hs).
      cbn [andb]. now rewrite !andb_false_r. }
    rewrite Hch. eexists; reflexivity.
Qed.
End Refused.

(** X14. A request without [path], or whose [allow_dists] is a string
    other than [all], [binary] and [source], is refused before the module
    body runs: the run fails and the world and the subprocess calls are
    as they were.  This holds for the basic module in and out of check
    mode, and for the wrapper module outside check mode. *)
Theorem invalid_request_refused {W : Type} {H : Host W}
    (inv : invocation) (st : state W) :
  dict_get "path" (task_args inv) = None
  \/ (exists s, dict_get "allow_dists" (task_args inv) = Some (PyStr s)
                /\ s <> "all" /\ s <> "binary" /\ s <> "source") ->
  (exists kw, Luadist.run_module inv st = (FailJson kw, st))
  /\ (task_check_mode inv = false ->
      exists kw, LuadistWrapper.run_module inv st = (FailJson kw, st)).
Proof.
  intros Hbad. split.
  - destruct (init_refuses "luadist" "package" true inv st Hbad) as [kw Hi].
    { now rewrite andb_false_r. }
    exists kw. unfold Luadist.run_module. unfold bind at 1.
    fold (@Luadist.module_args). unfold Luadist.module_args. rewrite Hi. reflexivity.
  - intros Hcheck.
    destruct (init_refuses "luadist_wrapper" "name" false inv st Hbad) as [kw Hi].
    { now rewrite Hcheck. }
    exists kw. unfold LuadistWrapper.run_module. unfold bind at 1.
    unfold LuadistWrapper.module_args. rewrite Hi. reflexivity.
Qed.

(** ** Running again *)

Section Rerun.
Context {W : Type} {H : Host W}.

(** The run of the wrapper module when the binary is there. *)
Lemma wrapper_run_present (r : request) (w : W) :
  os_path_exists w (luadist_bin (r_path r)) = true ->
  LuadistWrapper.run_module (task "name" r false) (State w [])
  = wrapper_tail r false (State w []).
Proof.
  intros Hex. unfold LuadistWrapper.run_module. unfold bind at 1.
  rewrite wrapper_init.
  unfold bind at 1 2 3 4. cbn [params py_getitem dict_get String.eqb Ascii.eqb Bool.eqb ret].
  unfold bind at 1.
  unfold LuadistWrapper._luadist_is_present at 1, py_path_join, py_path_exists.
  unfold bind at 1. cbn [ret world]. fold (luadist_bin (r_path r)).
  rewrite Hex. reflexivity.
Qed.

(** The run of the wrapper module when the binary is absent. *)
Lemma wrapper_run_absent (r : request) (w w1 : W) (rc : Z) (out err : string) :
  os_path_exists w (luadist_bin (r_path r)) = false ->
  spawn w LuadistWrapper.setup_cmd true (Some (r_path r)) = (w1, (rc, out, err)) ->
  LuadistWrapper.run_module (task "name" r false) (State w [])
  = if os_path_exists w1 (luadist_bin (r_path r))
    then wrapper_tail r true
           (State w1 [Call LuadistWrapper.setup_cmd true (Some (r_path r)) rc out err])
    else (FailJson (failure rc out err LuadistWrapper.setup_failed),
          State w1 [Call LuadistWrapper.setup_cmd true (Some (r_path r)) rc out err]).
Proof.
  intros Hex Hs. unfold LuadistWrapper.run_module. unfold bind at 1.
  rewrite wrapper_init.
  unfold bind at 1 2 3 4. cbn [params py_getitem dict_get String.eqb Ascii.eqb Bool.eqb ret].
  unfold bind at 1.
  unfold LuadistWrapper._luadist_is_present at 1, py_path_join, py_path_exists.
  unfold bind at 1. cbn [ret world]. fold (luadist_bin (r_path r)).
  rewrite Hex. cbn [negb].
  unfold LuadistWrapper._setup_luadist, run_command.
  unfold bind at 1 2 3. cbn [world calls]. rewrite Hs.
  unfold LuadistWrapper._luadist_is_present at 1, py_path_join, py_path_exists.
  unfold bind at 1 2. cbn [ret world]. fold (luadist_bin (r_path r)).
  destruct (os_path_exists w1 (luadist_bin (r_path r))); reflexivity.
Qed.

(** When [luadist list] changes nothing, neither does the audit loop. *)
Lemma audit_keeps_world (m : AnsibleModule) (path : string) (pkgs : list string) :
  (forall w pkg, fst (spawn w (list_cmd pkg) false (Some path)) = w) ->
  forall st : state W,
    world (snd (LuadistWrapper.audit m (PyStr path) (map PyStr pkgs) st)) = world st.
Proof.
  intros Hro. induction pkgs as [|p pkgs IH]; intros st; [reflexivity|].
  cbn [map LuadistWrapper.audit]. unfold bind.
  destruct (spawn (world st) (list_cmd p) false (Some path))
    as [w1 [[rc out] err]] eqn:Hs.
  rewrite (wrapper_is_present m path p st w1 rc out err Hs).
  pose proof (Hro (world st) p) as Hw. rewrite Hs in Hw. cbn [fst] in Hw. subst w1.
  destruct (Z.eqb rc 0); [|reflexivity].
  destruct (str_contains p out); cbn [negb]; [|reflexivity].
  rewrite IH. reflexivity.
Qed.

(** When [luadist list] changes nothing, the code after the bootstrap
    step leaves the world as it found it unless it installs. *)
Lemma wrapper_tail_world (r : request) (changed : bool) (st : state W)
    (o : outcome unit) (st' : state W) :
  (forall w pkg, fst (spawn w (list_cmd pkg) false (Some (r_path r))) = w) ->
  wrapper_tail r changed st = (o, st') ->
  existsb is_install (calls st') = false ->
  world st' = world st.
Proof.
  intros Hro Hrun Hno. unfold wrapper_tail in Hrun.
  destruct (r_packages r) as [pkgs|] eqn:Hp.
  2:{ assert (Heff : eff_packages r = PyNone) by (unfold eff_packages; now rewrite Hp).
      rewrite Heff in Hrun. cbn in Hrun. now inversion Hrun. }
  assert (Heff : eff_packages r = str_list pkgs) by (unfold eff_packages; now rewrite Hp).
  rewrite Heff in Hrun.
  unfold bind at 1 in Hrun. cbn [py_iter str_list ret] in Hrun.
  unfold bind at 1 in Hrun.
  match type of Hrun with
  | context [LuadistWrapper.audit ?m _ _ _] =>
      pose proof (audit_keeps_world m (r_path r) pkgs Hro st) as Hw;
      destruct (LuadistWrapper.audit m (PyStr (r_path r)) (map PyStr pkgs) st)
        as [oa sta] eqn:Ha
  end.
  cbn [snd] in Hw.
  destruct oa as [b|kw|kw|e]; try (inversion Hrun; subst; exact Hw).
  destruct b; cbn [negb] in Hrun.
  - run_step. inversion Hrun; subst. exact Hw.
  - exfalso. unfold bind at 1 2 in Hrun.
    destruct (spawn (world sta) (wrapper_cmd r pkgs) false (Some (r_path r)))
      as [w3 [[rc out] err]] eqn:Hs.
    rewrite (wrapper_install _ (r_path r) pkgs (eff_policy r) (eff_repo r)
               sta w3 rc out err Hs) in Hrun.
    assert (Hc : calls st' = Call (wrapper_cmd r pkgs) false (Some (r_path r)) rc out err
                             :: calls sta).
    { destruct (andb _ _); run_step; inversion Hrun; reflexivity. }
    rewrite Hc in Hno. cbn [existsb] in Hno.
    unfold is_install at 1 in Hno. cbn [c_cmd] in Hno.
    unfold wrapper_cmd, install_command in Hno. rewrite prefix_app in Hno.
    discriminate.
Qed.

(** When [luadist list] changes nothing, a run that does not install
    ends in the world that the bootstrap step left. *)
Lemma wrapper_world_without_install (r : request) (w : W)
    (o : outcome unit) (st' : state W) :
  (forall w pkg, fst (spawn w (list_cmd pkg) false (Some (r_path r))) = w) ->
  LuadistWrapper.run_module (task "name" r false) (State w []) = (o, st') ->
  existsb is_install (calls st') = false ->
  world st' = fst (boot_step w (r_path r)).
Proof.
  intros Hro Hrun Hno.
  destruct (os_path_exists w (luadist_bin (r_path r))) eqn:Hex.
  - rewrite (wrapper_run_present r w Hex) in Hrun.
    rewrite (boot_step_present w (r_path r) Hex). cbn [fst].
    exact (wrapper_tail_world r false _ o st' Hro Hrun Hno).
  - destruct (spawn w LuadistWrapper.setup_cmd true (Some (r_path r)))
      as [w1 [[rc out] err]] eqn:Hs.
    rewrite (wrapper_run_absent r w w1 rc out err Hex Hs) in Hrun.
    rewrite (boot_step_absent w w1 (r_path r) rc out err Hex Hs). cbn [fst].
    destruct (os_path_exists w1 (luadist_bin (r_path r))).
    + exact (wrapper_tail_world r true _ o st' Hro Hrun Hno).
    + now inversion Hrun.
Qed.
End Rerun.

(** C9, as the code has it.  Let a first run of the wrapper module
    succeed, and let the environment be stable: [luadist list] changes
    nothing, and the second run starts in the world the first one left.
    If the first run installed, let the install have taken effect: in the
    world it left the LuaDist binary exists and every requested package is
    listed.  Then a second run with the same request succeeds, reports
    changed=false and runs neither bootstrap nor install.  (When the
    first run did not install, nothing is assumed of the world it left.) *)
Theorem second_run_changes_nothing {W : Type} {H : Host W}
    (r : request) (check : bool) (w0 : W) (kw1 : kwargs) (st1 : state W) :
  (forall w pkg, fst (spawn w (list_cmd pkg) false (Some (r_path r))) = w) ->
  LuadistWrapper.run_module (task "name" r check) (State w0 []) = (ExitJson kw1, st1) ->
  (existsb is_install (calls st1) = true ->
   os_path_exists (world st1) (luadist_bin (r_path r)) = true
   /\ all_listed (world st1) (r_path r) (pkgs_of r) = true) ->
  exists kw2 st2,
    LuadistWrapper.run_module (task "name" r check) (State (world st1) [])
    = (ExitJson kw2, st2)
    /\ reported_changed kw2 = false
    /\ ran_bootstrap_or_install st2 = false.
Proof.
  intros Hro Hrun1 Heffect.
  destruct check.
  - unfold LuadistWrapper.run_module. unfold bind at 1.
    rewrite wrapper_init_check. eexists _, _. repeat split; reflexivity.
  - assert (Hconv : exists pkgs,
              r_packages r = Some pkgs
              /\ os_path_exists (world st1) (luadist_bin (r_path r)) = true
              /\ all_listed (world st1) (r_path r) pkgs = true).
    { destruct (existsb is_install (calls st1)) eqn:Hi.
      - destruct (Heffect eq_refl) as [Hex Hall].
        apply wrapper_run_sound in Hrun1.
        destruct (r_packages r) as [pkgs|] eqn:Hp.
        + exists pkgs. unfold pkgs_of in Hall. rewrite Hp in Hall. auto.
        + inversion Hrun1; subst; congruence.
      - pose proof (wrapper_world_without_install r w0 _ st1 Hro Hrun1 Hi) as Hw.
        apply wrapper_run_sound in Hrun1.
        inversion Hrun1 as [w2 rc out err Hex Hs Hex1 Ho Hst
                           | w2 boot Hb Hex Hnone Ho Hst
                           | w2 boot pkgs w3 c rest Hb Hex Hsome Hall Hl Hrc Hz Ho Hst
                           | w2 boot pkgs w3 lists Hb Hex Hsome Hall Hl Hz Ho Hst
                           | w2 boot pkgs w3 lists w4 rc out err
                               Hb Hex Hsome Hall Hl Hz Hne Hs Ho Hst];
          subst.
        + rewrite Hb in Hw. cbn [fst world] in Hw. subst w3.
          exists pkgs. cbn [world]. auto.
        + exfalso. cbn [calls existsb] in Hi.
          unfold is_install at 1 in Hi. cbn [c_cmd] in Hi.
          unfold wrapper_cmd, install_command in Hi. rewrite prefix_app in Hi.
          discriminate. }
    destruct Hconv as [pkgs [Hp [Hex Hall]]].
    destruct (wrapper_converged r pkgs (world st1) Hp Hex Hall) as [st2 [Hrun2 Hno]].
    exists (result false "" r), st2. repeat split; auto.
Qed.

Lemma shelf_list_read_only (w : Shelf.world) (pkg : string) (cwd : option string) :
  fst (Shelf.run w (list_cmd pkg) false cwd) = w.
Proof.
  unfold Shelf.run.
  replace (String.eqb (list_cmd pkg) LuadistWrapper.setup_cmd) with false
    by reflexivity.
  unfold list_cmd.
  rewrite (prefix_app "./LuaDist/bin/luadist list " pkg). reflexivity.
Qed.

Lemma second_run_changes_nothing_witness :
  let first :=
    LuadistWrapper.run_module (H := Shelf.host) (task "name" Runs.req_md5 false)
      (State Shelf.w_empty []) in
  fst first = ExitJson (result true Runs.md5_cmd Runs.req_md5)
  /\ existsb is_bootstrap (calls (snd first)) = true
  /\ existsb is_install (calls (snd first)) = true
  /\ exists kw2 st2,
       LuadistWrapper.run_module (H := Shelf.host) (task "name" Runs.req_md5 false)
         (State (world (snd first)) [])
       = (ExitJson kw2, st2)
       /\ reported_changed kw2 = false
       /\ ran_bootstrap_or_install st2 = false.
Proof.
  intros first.
  split; [vm_compute; reflexivity|].
  split; [vm_compute; reflexivity|].
  split; [vm_compute; reflexivity|].
  refine (second_run_changes_nothing (H := Shelf.host) Runs.req_md5 false Shelf.w_empty
            (result true Runs.md5_cmd Runs.req_md5) (snd first) _ _ _).
  - intros w pkg. apply shelf_list_read_only.
  - vm_compute. reflexivity.
  - intros _. split; vm_compute; reflexivity.
Defined.

(** X15. Idempotence without an install.  When [luadist list] changes
    nothing in the world, a successful run of the wrapper module that did
    not install (it may have bootstrapped) can be repeated: a second run
    for the same request, from the world the first one left, succeeds,
    reports changed=false and runs neither bootstrap nor install. *)
Theorem rerun_without_install_changes_nothing {W : Type} {H : Host W}
    (r : request) (w : W) (kw : kwargs) (st' : state W) :
  (forall w pkg, fst (spawn w (list_cmd pkg) false (Some (r_path r))) = w) ->
  LuadistWrapper.run_module (task "name" r false) (State w []) = (ExitJson kw, st') ->
  existsb is_install (calls st') = false ->
  exists st2,
    LuadistWrapper.run_module (task "name" r false) (State (world st') [])
    = (ExitJson [("changed", PyBool false); ("cmd", PyStr "");
                 ("env_path", PyStr (r_path r)); ("name", eff_packages r)], st2)
    /\ ran_bootstrap_or_install st2 = false.
Proof.
  intros Hro Hrun Hno.
  pose proof (wrapper_world_without_install r w _ st' Hro Hrun Hno) as Hw.
  apply wrapper_run_sound in Hrun.
  inversion Hrun as [w2 rc out err Hex Hs Hex1 Ho Hst
                    | w2 boot Hb Hex Hnone Ho Hst
                    | w2 boot pkgs w3 c rest Hb Hex Hsome Hall Hl Hrc Hz Ho Hst
                    | w2 boot pkgs w3 lists Hb Hex Hsome Hall Hl Hz Ho Hst
                    | w2 boot pkgs w3 lists w4 rc out err Hb Hex Hsome Hall Hl Hz Hne Hs Ho Hst];
    subst.
  - rewrite Hb in Hw. cbn [fst world] in Hw. subst w3.
    cbn [world]. exact (wrapper_converged r pkgs w2 Hsome Hex Hall).
  - exfalso. cbn [calls existsb] in Hno.
    unfold is_install at 1 in Hno. cbn [c_cmd] in Hno.
    unfold wrapper_cmd, install_command in Hno. rewrite prefix_app in Hno.
    discriminate.
Qed.

(** ** Concrete runs for the further properties *)

Lemma toy_list_read_only (w : Toy.world) (pkg : string) (cwd : option string) :
  fst (Toy.run w (list_cmd pkg) false cwd) = w.
Proof.
  unfold Toy.run.
  replace (orb (String.eqb (list_cmd pkg) LuadistWrapper.setup_cmd)
               (String.eqb (list_cmd pkg) Luadist.setup_cmd)) with false
    by reflexivity.
  unfold list_cmd.
  rewrite (prefix_app "./LuaDist/bin/luadist list " pkg). reflexivity.
Qed.

Lemma wrapper_uses_request_witness :
  Forall (fun c =>
            c_cwd c = Some "/env"
            /\ (c_cmd c = LuadistWrapper.setup_cmd
                \/ (exists pkg, In pkg ["md5"] /\ c_cmd c = list_cmd pkg)
                \/ c_cmd c = install_command " -repos=" ["md5"] BinaryOnly
                               "git://example.org/repo.git"))
         [Runs.install_call Runs.w_silent; Runs.list_call Runs.w_silent].
Proof.
  refine (wrapper_uses_request (H := Toy.host) Runs.req_md5 Runs.w_silent
            (ExitJson (result true Runs.md5_cmd Runs.req_md5))
            (State Runs.w_silent [Runs.install_call Runs.w_silent;
                                  Runs.list_call Runs.w_silent]) _).
  vm_compute. reflexivity.
Defined.

Lemma failure_reports_last_call_witness :
  exists c rest,
    [Runs.list_call Runs.w_list_broken] = c :: rest
    /\ dict_get "rc" (failure 1 "" "" LuadistWrapper.audit_failed) = Some (PyInt (c_rc c))
    /\ dict_get "stdout" (failure 1 "" "" LuadistWrapper.audit_failed)
       = Some (PyStr (c_out c))
    /\ dict_get "stderr" (failure 1 "" "" LuadistWrapper.audit_failed)
       = Some (PyStr (c_err c))
    /\ is_list c = true /\ c_rc c <> 0%Z.
Proof.
  destruct (failure_reports_last_call (H := Toy.host) Runs.req_md5 Runs.w_list_broken
              (failure 1 "" "" LuadistWrapper.audit_failed)
              (State Runs.w_list_broken [Runs.list_call Runs.w_list_broken]))
    as [c [rest [Hc [Hrc [Hout [Herr [_ [Hlist _]]]]]]]].
  - vm_compute. reflexivity.
  - right; left. vm_compute. reflexivity.
  - exists c, rest. repeat split; try assumption; apply Hlist; vm_compute; reflexivity.
Defined.

Lemma result_echoes_request_witness :
  exists pkgs,
    r_packages Runs.req_md5 = Some pkgs
    /\ dict_get "env_path" (result false "" Runs.req_md5) = Some (PyStr "/env")
    /\ dict_get "name" (result false "" Runs.req_md5) = Some (str_list pkgs).
Proof.
  refine (result_echoes_request (H := Toy.host) Runs.req_md5 Runs.w_md5
            (result false "" Runs.req_md5)
            (State Runs.w_md5 [Runs.list_call Runs.w_md5]) _).
  vm_compute. reflexivity.
Defined.

Lemma install_exit_zero_succeeds_witness :
  fst (Runs.run_wrapper Runs.req_md5 false Runs.w_silent)
  = ExitJson [("changed", PyBool true); ("cmd", PyStr Runs.md5_cmd);
              ("env_path", PyStr "/env"); ("name", str_list ["md5"])].
Proof.
  refine (install_exit_zero_succeeds (H := Toy.host) Runs.req_md5 Runs.w_silent
            (fst (Runs.run_wrapper Runs.req_md5 false Runs.w_silent))
            (snd (Runs.run_wrapper Runs.req_md5 false Runs.w_silent))
            (Runs.install_call Runs.w_silent) _ _ _ _).
  - vm_compute. reflexivity.
  - left. vm_compute. reflexivity.
  - vm_compute. reflexivity.
  - vm_compute. reflexivity.
Defined.

Lemma install_command_defaults_witness :
  c_cmd (Call (wrapper_cmd (Request "/env" (Some ["md5"]) None None) ["md5"])
              false (Some "/env") 0 "" "")
  = "./LuaDist/bin/luadist install " ++ pkg_words ["md5"]
      ++ " -source=true -binary=true -repos=" ++ dquote
      ++ "git://github.com/LuaDist/Repository.git" ++ dquote.
Proof.
  refine (install_command_defaults (H := Toy.host)
            (Request "/env" (Some ["md5"]) None None) Runs.w_silent _ _ _ _ _).
  - reflexivity.
  - reflexivity.
  - left. vm_compute. reflexivity.
  - vm_compute. reflexivity.
Defined.

Lemma empty_package_list_bootstrap_only_witness :
  calls (snd (Runs.run_wrapper Runs.req_base false Runs.w_fresh))
  = snd (boot_step Runs.w_fresh "/env")
  /\ fst (Runs.run_wrapper Runs.req_base false Runs.w_fresh)
     = ExitJson [("changed", PyBool true); ("cmd", PyStr "");
                 ("env_path", PyStr "/env"); ("name", PyList [])].
Proof.
  destruct (empty_package_list_bootstrap_only (H := Toy.host) Runs.req_base Runs.w_fresh
              eq_refl) as [Hcalls Hout].
  split; [exact Hcalls|].
  refine (Hout _). vm_compute. reflexivity.
Defined.

Lemma success_means_environment_witness :
  os_path_exists (fst (boot_step Runs.w_md5 "/env")) (luadist_bin "/env") = true
  /\ os_path_exists Runs.w_md5 (luadist_bin "/env") = true
  /\ all_listed Runs.w_md5 "/env" ["md5"] = true.
Proof.
  destruct (success_means_environment (H := Toy.host) Runs.req_md5 Runs.w_md5
              (result false "" Runs.req_md5)
              (State Runs.w_md5 [Runs.list_call Runs.w_md5])) as [Hbin Hconv].
  - vm_compute. reflexivity.
  - split; [exact Hbin|]. refine (Hconv _). vm_compute. reflexivity.
Defined.

Lemma present_iff_name_occurs_witness :
  fst (LuadistWrapper._is_present Runs.no_module (PyStr "/env") (PyStr "md5")
         (State Runs.w_md5 []))
  = Ret true.
Proof.
  refine (proj2 (present_iff_name_occurs (H := Toy.host) Runs.no_module "/env" "md5"
                   (State Runs.w_md5 []) Runs.w_md5 "md5-1.2" "" _) _).
  - vm_compute. reflexivity.
  - exists "", "-1.2". vm_compute. reflexivity.
Defined.

Lemma present_by_longer_name_witness :
  fst (LuadistWrapper._is_present Runs.no_module (PyStr "/env") (PyStr "md")
         (State Runs.w_md5 []))
  = Ret true.
Proof.
  refine (proj1 (present_by_longer_name (H := Toy.host) Runs.no_module "/env" "md"
                   (State Runs.w_md5 []) Runs.w_md5 "md5-1.2" "" _) "md5" _ _);
    vm_compute; reflexivity.
Defined.

Lemma invalid_request_refused_witness :
  (exists kw,
     Luadist.run_module (Invocation [("package", str_list ["md5"])] false)
       (State Runs.w_fresh [])
     = (FailJson kw, State Runs.w_fresh []))
  /\ exists kw,
       LuadistWrapper.run_module
         (Invocation [("path", PyStr "/env"); ("allow_dists", PyStr "any")] false)
         (State Runs.w_fresh [])
       = (FailJson kw, State Runs.w_fresh []).
Proof.
  split.
  - refine (proj1 (invalid_request_refused (H := Toy.host)
                     (Invocation [("package", str_list ["md5"])] false)
                     (State Runs.w_fresh []) (or_introl _))).
    vm_compute. reflexivity.
  - refine (proj2 (invalid_request_refused (H := Toy.host)
                     (Invocation [("path", PyStr "/env"); ("allow_dists", PyStr "any")] false)
                     (State Runs.w_fresh []) (or_intror _)) _).
    + exists "any". split; [vm_compute; reflexivity | repeat split; discriminate].
    + reflexivity.
Defined.

Lemma rerun_without_install_changes_nothing_witness :
  exists st2,
    Runs.run_wrapper Runs.req_base false
      (world (snd (Runs.run_wrapper Runs.req_base false Runs.w_fresh)))
    = (ExitJson [("changed", PyBool false); ("cmd", PyStr "");
                 ("env_path", PyStr "/env"); ("name", PyList [])], st2)
    /\ ran_bootstrap_or_install st2 = false.
Proof.
  refine (rerun_without_install_changes_nothing (H := Toy.host) Runs.req_base Runs.w_fresh
            (result true "" Runs.req_base)
            (snd (Runs.run_wrapper Runs.req_base false Runs.w_fresh)) _ _ _).
  - intros w pkg. apply toy_list_read_only.
  - vm_compute. reflexivity.
  - vm_compute. reflexivity.
Defined.
